(** * stheno: the call cache, the Normal distribution and the structured
      covariance operators

    The development follows the Python sources:
    - [stheno/cache.py]: the class [Cache] and the decorator [cache];
    - [stheno/random.py]: the classes [Random] and [Normal];
    - the structured operators and the process graph, as the
      specification describes them. *)

From Stdlib Require Import ZArith QArith List String Ascii Bool Lia Permutation.
From Stdlib Require OrderedTypeEx.
Import ListNotations.

Local Open Scope Z_scope.

Scheme All for list.

(* ================================================================== *)
(** * Python values, resolved keys and dictionaries                    *)
(* ================================================================== *)

(** The objects that reach a cache as owner or as argument.  [int], [str]
    and [bool] are the three classes the second [_resolve] names; tuples
    and lists are the classes of the third; every other object (a kernel,
    a numpy array, a float, an [At] wrapper) is a [VObj]: [addr] is what
    [id] returns for it, [cls] its class name and [payload] its state as
    far as [__eq__] looks at it. *)
Inductive value : Type :=
| VInt (z : Z)
| VStr (s : string)
| VBool (b : bool)
| VTuple (xs : list value)
| VList (xs : list value)
| VObj (addr : Z) (cls : string) (payload : string).

(** What [_resolve] returns: ints, strings, booleans and tuples of them. *)
Inductive key : Type :=
| KInt (z : Z)
| KStr (s : string)
| KBool (b : bool)
| KTuple (ks : list key).

(** [type(v).__name__] *)
Definition type_name (v : value) : string :=
  match v with
  | VInt _ => "int"
  | VStr _ => "str"
  | VBool _ => "bool"
  | VTuple _ => "tuple"
  | VList _ => "list"
  | VObj _ cls _ => cls
  end%string.

(** Equality of dictionary keys is Python's [==] (with equal hashes): a
    [bool] equals the [int] of the same value, tuples are compared
    componentwise and are equal only at equal lengths. *)
Fixpoint key_eqb (a b : key) {struct a} : bool :=
  match a, b with
  | KInt x, KInt y => x =? y
  | KInt x, KBool y => x =? Z.b2z y
  | KBool x, KInt y => Z.b2z x =? y
  | KBool x, KBool y => Bool.eqb x y
  | KStr s, KStr t => String.eqb s t
  | KTuple xs, KTuple ys =>
      (fix all2 (xs : list key) (ys : list key) {struct xs} : bool :=
         match xs, ys with
         | [], [] => true
         | x :: xs', y :: ys' => key_eqb x y && all2 xs' ys'
         | _, _ => false
         end) xs ys
  | _, _ => false
  end.

(** The same comparison on lists of keys, for statements. *)
Fixpoint keys_eqb (xs ys : list key) : bool :=
  match xs, ys with
  | [], [] => true
  | x :: xs', y :: ys' => key_eqb x y && keys_eqb xs' ys'
  | _, _ => false
  end.

(** A Python [dict]: entries in insertion order, looked up with
    [key_eqb]; assigning to a key that is present replaces its value and
    keeps the key first inserted. *)
Definition dict (A : Type) : Type := list (key * A).

Fixpoint dict_get {A : Type} (k : key) (d : dict A) : option A :=
  match d with
  | [] => None
  | (k', v) :: d' => if key_eqb k' k then Some v else dict_get k d'
  end.

Fixpoint dict_set {A : Type} (k : key) (v : A) (d : dict A) : dict A :=
  match d with
  | [] => [(k, v)]
  | (k', v') :: d' =>
      if key_eqb k' k then (k', v) :: d' else (k', v') :: dict_set k v d'
  end.

(* ================================================================== *)
(** * cache.py                                                         *)
(* ================================================================== *)

Module PyCache.

(** ** [Cache._resolve]

    The three methods of the dispatcher, most specific class first:
    [{int, str, bool}] returns the key itself, [{tuple, list}] the tuple
    of the resolved elements, [object] the value of [id]. *)
Fixpoint _resolve (v : value) : key :=
  match v with
  | VInt z => KInt z
  | VStr s => KStr s
  | VBool b => KBool b
  | VTuple xs => KTuple (map _resolve xs)
  | VList xs => KTuple (map _resolve xs)
  | VObj addr _ _ => KInt addr
  end.

(** Two keys collide when the dictionary takes their resolutions for the
    same key. *)
Definition collide (v w : value) : bool := key_eqb (_resolve v) (_resolve w).

(** The scalars of the second method, and Python's [==] on them. *)
Definition is_scalar (v : value) : bool :=
  match v with
  | VInt _ | VStr _ | VBool _ => true
  | _ => false
  end.

Definition scalar_eq (v w : value) : bool :=
  match v, w with
  | VInt x, VInt y => x =? y
  | VInt x, VBool y => x =? Z.b2z y
  | VBool x, VInt y => Z.b2z x =? y
  | VBool x, VBool y => Bool.eqb x y
  | VStr s, VStr t => String.eqb s t
  | _, _ => false
  end.

(** The objects of the classes that the first method takes, and what
    [id] returns for them.  Python gives different ids to objects whose
    lifetimes overlap, and to no others: [coexist] holds of objects that
    exist at the same time. *)
Definition is_object (v : value) : bool :=
  match v with
  | VObj _ _ _ => true
  | _ => false
  end.

Definition address (v : value) : Z :=
  match v with
  | VObj addr _ _ => addr
  | _ => 0
  end.

Definition coexist (objs : list value) : Prop :=
  Forall (fun v => is_object v = true) objs /\ NoDup (map address objs).

(** The exceptions the decorator meets: the [KeyError] of a dictionary
    lookup, which it catches, and whatever the decorated method raises. *)
Inductive exn : Type :=
| KeyError
| OtherError (name : string).

Inductive outcome (A : Type) : Type :=
| Returned (a : A)
| Raised (e : exn).
Arguments Returned {A} a.
Arguments Raised {A} e.

(** The records handed to [log_cache_call.debug]; the elapsed time
    [cache.dur()] is left out of them. *)
Inductive event : Type :=
| LogHit (name : string)
| LogReversedHit (name : string)
| LogMissStart (name : string) (depth : Z)
| LogMissEnd (name : string).

Section WithTensor.

(** The outputs of kernels and means, and [B.transpose] on them. *)
Variable tensor : Type.
Variable transpose : tensor -> tensor.

(** [Cache.__init__] sets [_cache_call], [_cache_lab], [_start] and
    [depth]; the decorator reads and writes [_cache_call] and [depth]. *)
Record Cache : Type := mkCache {
  _cache_call : dict tensor;
  depth : Z
}.

Definition Cache_init : Cache := {| _cache_call := []; depth := 0 |}.

(** The state a cached call runs in: the cache object passed as last
    argument and the records of the logger. *)
Record world : Type := mkWorld {
  the_cache : Cache;
  log : list event
}.

Definition fresh_world : world := {| the_cache := Cache_init; log := [] |}.

(** Computations over the world that return or raise. *)
Definition M (A : Type) : Type := world -> outcome A * world.

Definition ret {A : Type} (a : A) : M A := fun w => (Returned a, w).

Definition raise {A : Type} (e : exn) : M A := fun w => (Raised e, w).

Definition bind {A B : Type} (m : M A) (k : A -> M B) : M B :=
  fun w =>
    match m w with
    | (Returned a, w') => k a w'
    | (Raised e, w') => (Raised e, w')
    end.

(** [try: body  except KeyError: handler] *)
Definition try_except_KeyError {A : Type} (body handler : M A) : M A :=
  fun w =>
    match body w with
    | (Raised KeyError, w') => handler w'
    | r => r
    end.

Notation "x <- m ;; k" := (bind m (fun x => k))
  (at level 61, m at next level, right associativity).
Notation "m ;;; k" := (bind m (fun _ => k))
  (at level 61, right associativity).

Definition debug (e : event) : M unit :=
  fun w => (Returned tt, {| the_cache := the_cache w; log := log w ++ [e] |}).

Definition get_depth : M Z := fun w => (Returned (depth (the_cache w)), w).

Definition set_depth (d : Z) : M unit :=
  fun w =>
    (Returned tt,
     {| the_cache := {| _cache_call := _cache_call (the_cache w); depth := d |};
        log := log w |}).

(** [Cache.__getitem__]: [self._cache_call[self._resolve(key)]] *)
Definition __getitem__ (k : value) : M tensor :=
  fun w =>
    match dict_get (_resolve k) (_cache_call (the_cache w)) with
    | Some out => (Returned out, w)
    | None => (Raised KeyError, w)
    end.

(** [Cache.__setitem__]: [self._cache_call[self._resolve(key)] = output] *)
Definition __setitem__ (k : value) (output : tensor) : M unit :=
  fun w =>
    (Returned tt,
     {| the_cache :=
          {| _cache_call := dict_set (_resolve k) output (_cache_call (the_cache w));
             depth := depth (the_cache w) |};
        log := log w |}).

(** The subscripts [cache[self, inputs]] and
    [cache[self, tuple(reversed(inputs))]]. *)
Definition forward_key (self : value) (inputs : list value) : value :=
  VTuple [self; VTuple inputs].

Definition reversed_key (self : value) (inputs : list value) : value :=
  VTuple [self; VTuple (rev inputs)].

(** ** The decorator [cache]

    [f] is the decorated [__call__]: from the owner and the inputs it
    computes in the world, where it may call cached methods through the
    same cache, and returns a tensor or raises.  [cache f] is the
    [__call__] the decorator returns; its last argument, the cache, is
    the one of the world. *)
Definition cache (f : value -> list value -> M tensor)
    (self : value) (inputs : list value) : M tensor :=
  try_except_KeyError
    (out <- __getitem__ (forward_key self inputs) ;;
     debug (LogHit (type_name self)) ;;;
     ret out)
    (try_except_KeyError
       (stored <- __getitem__ (reversed_key self inputs) ;;
        debug (LogReversedHit (type_name self)) ;;;
        ret (transpose stored))
       (d <- get_depth ;;
        debug (LogMissStart (type_name self) d) ;;;
        set_depth (d + 1) ;;;
        out <- f self inputs ;;
        __setitem__ (forward_key self inputs) out ;;;
        d' <- get_depth ;;
        set_depth (d' - 1) ;;;
        debug (LogMissEnd (type_name self)) ;;;
        __getitem__ (forward_key self inputs))).

(** The lookups of the two subscripts, and the number of computations a
    log records as started. *)
Definition lookup (k : value) (w : world) : option tensor :=
  dict_get (_resolve k) (_cache_call (the_cache w)).

(** The worlds a call goes through: after a record is logged; when the
    decorated method is entered on a miss (the start is logged and
    [depth] is one more); when its output [out] is stored from the world
    [w1] it left (the entry is set, [depth] is one less, the end is
    logged). *)
Definition logged (e : event) (w : world) : world :=
  {| the_cache := the_cache w; log := log w ++ [e] |}.

Definition entered (self : value) (w : world) : world :=
  {| the_cache :=
       {| _cache_call := _cache_call (the_cache w);
          depth := depth (the_cache w) + 1 |};
     log := log w ++ [LogMissStart (type_name self) (depth (the_cache w))] |}.

Definition left_with (self : value) (inputs : list value) (out : tensor)
    (w1 : world) : world :=
  {| the_cache :=
       {| _cache_call :=
            dict_set (_resolve (forward_key self inputs)) out
              (_cache_call (the_cache w1));
          depth := depth (the_cache w1) - 1 |};
     log := log w1 ++ [LogMissEnd (type_name self)] |}.

Definition is_miss_start (e : event) : bool :=
  match e with
  | LogMissStart _ _ => true
  | _ => false
  end.

Definition computations (w : world) : nat :=
  List.length (filter is_miss_start (log w)).

(** [n] further calls of the cached method with the same owner and
    inputs, one after the other: the outcomes and the last world. *)
Fixpoint call_again (f : value -> list value -> M tensor)
    (self : value) (inputs : list value) (n : nat) (w : world)
  : list (outcome tensor) * world :=
  match n with
  | O => ([], w)
  | S n' =>
      let (o, w') := cache f self inputs w in
      let (os, w'') := call_again f self inputs n' w' in
      (o :: os, w'')
  end.

End WithTensor.

Arguments Cache_init {tensor}.
Arguments fresh_world {tensor}.
Arguments _cache_call {tensor} _.
Arguments depth {tensor} _.
Arguments the_cache {tensor} _.
Arguments log {tensor} _.
Arguments lookup {tensor} _ _.
Arguments logged {tensor} _ _.
Arguments entered {tensor} _ _.
Arguments left_with {tensor} _ _ _ _.
Arguments computations {tensor} _.
Arguments mkCache {tensor} _ _.
Arguments mkWorld {tensor} _ _.

End PyCache.

(* ================================================================== *)
(** * random.py                                                        *)
(* ================================================================== *)

Module PyRandom.

(** The double quote of the two error messages. *)
Definition dquote : string := String (ascii_of_nat 34) EmptyString.

(** The exceptions of this module: the [NotImplementedError] the
    arithmetic raises, the [AttributeError] of reading
    [_construct_mean] or [_construct_var] on an object that never got
    one, the [TypeError] and the [ZeroDivisionError] of Python's
    operators, and whatever else the operators of a backend object
    raise. *)
Inductive exn : Type :=
| NotImplementedError (message : string)
| AttributeError (attribute : string)
| TypeError
| ZeroDivisionError
| OtherError (name : string).

Inductive outcome (A : Type) : Type :=
| Returned (a : A)
| Raised (e : exn).
Arguments Returned {A} a.
Arguments Raised {A} e.

(** A message names a class when the class name stands in it. *)
Definition names (message cls : string) : Prop :=
  exists before after, message = (before ++ cls ++ after)%string.

Section WithBackend.

(** The numeric backend [B] (the package [lab]) and the packages
    [matrix] and [plum] are taken as they come: [array] holds the
    tensors, the structured matrices and the floats, [dtype] the data
    types, [seed] the state of the random generator that [B.sample]
    draws from. *)
Variable array : Type.
Variable dtype : Type.
Variable seed : Type.

(** The objects that the attributes [_mean] and [_var] hold and that
    the arithmetic takes as plain operands: [None], a Python [int] (of
    which [0] is the one that [is 0] recognises), or an object of the
    backend. *)
Inductive pyobj : Type :=
| PyNone
| PyInt (z : Z)
| Arr (a : array).

Variable isinstance_Zero : array -> bool.       (* isinstance(a, Zero) *)
Variable convert_AbstractMatrix : pyobj -> array. (* convert(x, AbstractMatrix) *)
Variable B_dtype : pyobj -> dtype.
Variable B_shape0 : pyobj -> Z.                 (* B.shape(x)[0] *)
Variable B_zeros : dtype -> Z -> Z -> array.
Variable B_fill_diag : pyobj -> Z -> array.
Variable B_sample : seed -> pyobj -> Z -> array.  (* B.sample(var, num=num) *)
Variable B_dense : pyobj -> array.
Variable py_add : pyobj -> pyobj -> pyobj.      (* a + b, within the backend *)

(** The methods behind [+], [*] and [**] of an object of the backend,
    at an operand that the caller of the arithmetic chose: they return
    an object of the backend or raise.  In [object_add a b] and
    [object_mul a b] one of [a] and [b] at least is such an object. *)
Variable object_add : pyobj -> pyobj -> outcome array.
Variable object_mul : pyobj -> pyobj -> outcome array.
Variable object_pow : array -> nat -> outcome array.

(** The attributes of a [Normal].  [None] in [_construct_mean] and
    [_construct_var] stands for the attribute that the first
    [__init__] does not set; [None] in [_mean_is_zero] is Python's. *)
Record Normal : Type := mkNormal {
  _mean : pyobj;
  _construct_mean : option (unit -> pyobj);
  _mean_is_zero : option bool;
  _var : pyobj;
  _construct_var : option (unit -> pyobj)
}.

(** The four [__init__] methods, in the order of the source. *)
Definition Normal_mean_var (mean var : pyobj) : Normal :=
  {| _mean := mean; _construct_mean := None; _mean_is_zero := None;
     _var := var; _construct_var := None |}.

Definition Normal_var (var : pyobj) : Normal :=
  Normal_mean_var (PyInt 0) var.

Definition Normal_constructors (construct_mean construct_var : unit -> pyobj)
  : Normal :=
  {| _mean := PyNone; _construct_mean := Some construct_mean;
     _mean_is_zero := None;
     _var := PyNone; _construct_var := Some construct_var |}.

Definition Normal_construct_var (construct_var : unit -> pyobj) : Normal :=
  Normal_constructors (fun _ => PyInt 0) construct_var.

(** Methods of a [Normal] read and write its attributes and return or
    raise. *)
Definition N (A : Type) : Type := Normal -> outcome A * Normal.

Definition ret {A : Type} (a : A) : N A := fun n => (Returned a, n).

Definition raise {A : Type} (e : exn) : N A := fun n => (Raised e, n).

Definition bind {A B : Type} (m : N A) (k : A -> N B) : N B :=
  fun n =>
    match m n with
    | (Returned a, n') => k a n'
    | (Raised e, n') => (Raised e, n')
    end.

Notation "x <- m ;; k" := (bind m (fun x => k))
  (at level 61, m at next level, right associativity).
Notation "m ;;; k" := (bind m (fun _ => k))
  (at level 61, right associativity).

Definition when (b : bool) (m : N unit) : N unit :=
  if b then m else ret tt.

Definition read {A : Type} (field : Normal -> A) : N A :=
  fun n => (Returned (field n), n).

Definition set_mean (m : pyobj) : N unit :=
  fun n =>
    (Returned tt,
     {| _mean := m; _construct_mean := _construct_mean n;
        _mean_is_zero := _mean_is_zero n;
        _var := _var n; _construct_var := _construct_var n |}).

Definition set_mean_is_zero (b : bool) : N unit :=
  fun n =>
    (Returned tt,
     {| _mean := _mean n; _construct_mean := _construct_mean n;
        _mean_is_zero := Some b;
        _var := _var n; _construct_var := _construct_var n |}).

Definition set_var (v : pyobj) : N unit :=
  fun n =>
    (Returned tt,
     {| _mean := _mean n; _construct_mean := _construct_mean n;
        _mean_is_zero := _mean_is_zero n;
        _var := v; _construct_var := _construct_var n |}).

(** An attribute that an [__init__] may have left unset. *)
Definition attribute {A : Type} (field : Normal -> option A) (name : string)
  : N A :=
  fun n =>
    match field n with
    | Some a => (Returned a, n)
    | None => (Raised (AttributeError name), n)
    end.

(** [x is None], [x is 0], [isinstance(x, Zero)] and [not x] *)
Definition is_None (x : pyobj) : bool :=
  match x with
  | PyNone => true
  | _ => false
  end.

Definition is_0 (x : pyobj) : bool :=
  match x with
  | PyInt 0 => true
  | _ => false
  end.

Definition is_Zero (x : pyobj) : bool :=
  match x with
  | Arr a => isinstance_Zero a
  | _ => false
  end.

Definition py_not (x : option bool) : bool :=
  match x with
  | Some true => false
  | _ => true
  end.

(** [Normal._resolve_var] and the property [var] *)
Definition _resolve_var : N unit :=
  v <- read _var ;;
  when (is_None v)
    (construct <- attribute _construct_var "_construct_var" ;;
     set_var (construct tt)) ;;;
  v' <- read _var ;;
  set_var (Arr (convert_AbstractMatrix v')).

Definition var : N pyobj :=
  _resolve_var ;;; read _var.

(** The properties [dtype] and [dim] *)
Definition dtype_ : N dtype :=
  v <- var ;; ret (B_dtype v).

Definition dim : N Z :=
  v <- var ;; ret (B_shape0 v).

(** [Normal._resolve_mean] and the properties [mean] and
    [mean_is_zero] *)
Definition _resolve_mean (construct_zeros : bool) : N unit :=
  m <- read _mean ;;
  when (is_None m)
    (construct <- attribute _construct_mean "_construct_mean" ;;
     set_mean (construct tt)) ;;;
  z <- read _mean_is_zero ;;
  when (match z with None => true | Some _ => false end)
    (m' <- read _mean ;;
     set_mean_is_zero (is_0 m' || is_Zero m')) ;;;
  m'' <- read _mean ;;
  when (is_0 m'' && construct_zeros)
    (t <- dtype_ ;;
     d <- dim ;;
     set_mean (Arr (B_zeros t d 1))).

Definition mean : N pyobj :=
  _resolve_mean true ;;; read _mean.

Definition mean_is_zero : N (option bool) :=
  _resolve_mean false ;;; read _mean_is_zero.

(** [Normal.sample]; [s] is the state of the generator at the call of
    [B.sample]. *)
Definition sample (s : seed) (num : Z) (noise : pyobj) : N array :=
  v <- var ;;
  v' <- (if negb (is_None noise)
         then d <- dim ;;
              v2 <- var ;;
              ret (py_add (Arr (B_fill_diag noise d)) v2)
         else ret v) ;;
  let drawn := Arr (B_sample s v' num) in
  z <- mean_is_zero ;;
  drawn' <- (if py_not z then m <- mean ;; ret (py_add drawn m) else ret drawn) ;;
  ret (B_dense drawn').

(** An expression that returns or raises and leaves the object as it
    is. *)
Definition eval {A : Type} (o : outcome A) : N A := fun n => (o, n).

Definition backend_object (o : outcome array) : outcome pyobj :=
  match o with
  | Returned a => Returned (Arr a)
  | Raised e => Raised e
  end.

(** [a + b], [a * b] and [a ** n] at an operand of the caller's choice.
    On [int]s they are Python's own; with an object of the backend
    among the operands they are the method of that object; what is
    left, [None] with [None] or with an [int], has no method that
    takes it and is a [TypeError]. *)
Definition operator_add (a b : pyobj) : outcome pyobj :=
  match a, b with
  | PyInt x, PyInt y => Returned (PyInt (x + y))
  | Arr _, _ | _, Arr _ => backend_object (object_add a b)
  | _, _ => Raised TypeError
  end.

Definition operator_mul (a b : pyobj) : outcome pyobj :=
  match a, b with
  | PyInt x, PyInt y => Returned (PyInt (x * y))
  | Arr _, _ | _, Arr _ => backend_object (object_mul a b)
  | _, _ => Raised TypeError
  end.

Definition operator_pow (a : pyobj) (n : nat) : outcome pyobj :=
  match a with
  | PyInt x => Returned (PyInt (x ^ Z.of_nat n))
  | Arr a' => backend_object (object_pow a' n)
  | PyNone => Raised TypeError
  end.

(** The right operand of [+] and [*]: another [Normal], an instance of
    another subclass of [Random] (a [GP], say) of which only the class
    name matters, or any other object. *)
Inductive operand : Type :=
| ONormal (other : Normal)
| ORandom (cls : string)
| OObject (c : pyobj).

(** The messages, from the class name [type(other).__name__]. *)
Definition add_message (cls : string) : string :=
  ("Cannot add a normal and a " ++ dquote ++ cls ++ dquote ++ ".")%string.

Definition mul_message (cls : string) : string :=
  ("Cannot multiply a normal and a f" ++ dquote ++ cls ++ dquote ++ ".")%string.

(** [Normal.__add__]: the methods for [object], [Random] and [Self];
    the dispatcher takes the most specific one.  With a [Normal] on the
    right, the attributes of that object are resolved as well: the
    method returns it with the sum.  With any other object on the
    right, [self.mean + other] is evaluated before [self.var] is
    read, and what it raises leaves the method. *)
Definition __add__ (other : operand) : N (Normal * operand) :=
  match other with
  | ONormal o =>
      m <- mean ;;
      fun n =>
        match mean o with
        | (Raised e, _) => (Raised e, n)
        | (Returned mo, o1) =>
            match var n with
            | (Raised e, n1) => (Raised e, n1)
            | (Returned v, n1) =>
                match var o1 with
                | (Raised e, _) => (Raised e, n1)
                | (Returned vo, o2) =>
                    (Returned (Normal_mean_var (py_add m mo) (py_add v vo),
                               ONormal o2), n1)
                end
            end
        end
  | ORandom cls => raise (NotImplementedError (add_message cls))
  | OObject c =>
      m <- mean ;;
      s <- eval (operator_add m c) ;;
      v <- var ;;
      ret (Normal_mean_var s v, other)
  end.

(** [Normal.__mul__]: the methods for [object] and [Random]; a [Normal]
    on the right is a [Random].  The arguments of [Normal] are
    evaluated from left to right: [self.mean * other], then [self.var],
    [other ** 2] and their product. *)
Definition __mul__ (other : operand) : N (Normal * operand) :=
  match other with
  | ONormal _ => raise (NotImplementedError (mul_message "Normal"))
  | ORandom cls => raise (NotImplementedError (mul_message cls))
  | OObject c =>
      m <- mean ;;
      s <- eval (operator_mul m c) ;;
      v <- var ;;
      p <- eval (operator_pow c 2) ;;
      q <- eval (operator_mul v p) ;;
      ret (Normal_mean_var s q, other)
  end.

(** A [Normal] as the four [__init__] leave it and as the methods keep
    it: an attribute that is still [None] has its constructor. *)
Definition well_formed (n : Normal) : Prop :=
  (_mean n = PyNone -> _construct_mean n <> None) /\
  (_var n = PyNone -> _construct_var n <> None).

(** What the attributes hold after [_resolve_var] and after the first
    step of [_resolve_mean], and the outcome of the test
    [self._mean is 0 or isinstance(self._mean, Zero)]. *)
Definition or_constructed (x : pyobj) (construct : option (unit -> pyobj))
  : pyobj :=
  if is_None x
  then match construct with Some c => c tt | None => x end
  else x.

Definition resolved_var (n : Normal) : pyobj :=
  Arr (convert_AbstractMatrix (or_constructed (_var n) (_construct_var n))).

Definition constructed_mean (n : Normal) : pyobj :=
  or_constructed (_mean n) (_construct_mean n).

Definition resolved_mean_is_zero (n : Normal) : bool :=
  match _mean_is_zero n with
  | Some b => b
  | None => is_0 (constructed_mean n) || is_Zero (constructed_mean n)
  end.

(** What the property [mean] returns: the zeros of [B.zeros] in place
    of the [int] 0. *)
Definition resolved_mean (n : Normal) : pyobj :=
  if is_0 (constructed_mean n)
  then Arr (B_zeros (B_dtype (resolved_var n)) (B_shape0 (resolved_var n)) 1)
  else constructed_mean n.

(** The object after the property [var] has been read, after
    [mean_is_zero] has been read, and after [mean] has been read. *)
Definition after_var (n : Normal) : Normal :=
  {| _mean := _mean n; _construct_mean := _construct_mean n;
     _mean_is_zero := _mean_is_zero n;
     _var := resolved_var n; _construct_var := _construct_var n |}.

Definition after_mean_is_zero (n : Normal) : Normal :=
  {| _mean := constructed_mean n; _construct_mean := _construct_mean n;
     _mean_is_zero := Some (resolved_mean_is_zero n);
     _var := _var n; _construct_var := _construct_var n |}.

Definition after_mean (n : Normal) : Normal :=
  {| _mean := resolved_mean n; _construct_mean := _construct_mean n;
     _mean_is_zero := Some (resolved_mean_is_zero n);
     _var := if is_0 (constructed_mean n) then resolved_var n else _var n;
     _construct_var := _construct_var n |}.

End WithBackend.

Arguments PyNone {array}.
Arguments PyInt {array} z.
Arguments Arr {array} a.
Arguments ONormal {array} other.
Arguments ORandom {array} cls.
Arguments OObject {array} c.
Arguments _mean {array} _.
Arguments _construct_mean {array} _.
Arguments _mean_is_zero {array} _.
Arguments _var {array} _.
Arguments _construct_var {array} _.
Arguments well_formed {array} n.
Arguments Normal_mean_var {array} mean var.
Arguments Normal_var {array} var.
Arguments Normal_constructors {array} construct_mean construct_var.
Arguments Normal_construct_var {array} construct_var.
Arguments is_0 {array} x.
Arguments is_None {array} x.

End PyRandom.

(* ================================================================== *)
(** * Structured covariance operators                                  *)
(* ================================================================== *)

Module SPD.

(** Modelled from the spec: the module [stheno/spd.py] ([SPD],
    [Diagonal], [UniformDiagonal], [LowRank] and their arithmetic) is
    not among the sources; only its tests are.  The definitions of this
    module follow sections 3 and 4.1 of the specification. *)
Inductive structure : Type :=
| SDense
| SDiagonal
| SUniformDiagonal
| SLowRank.

(** Modelled from the spec: the error of [stheno/spd.py] for a
    structurally singular operator (section 7), a [RuntimeError] for
    the tests. *)
Inductive exn : Type :=
| RuntimeError (message : string).

Inductive outcome (A : Type) : Type :=
| Returned (a : A)
| Raised (e : exn).
Arguments Returned {A} a.
Arguments Raised {A} e.

Definition singular {A : Type} : outcome A :=
  Raised (RuntimeError "singular operator").

Fixpoint map2 {A B C : Type} (f : A -> B -> C) (xs : list A) (ys : list B)
  : list C :=
  match xs, ys with
  | x :: xs', y :: ys' => f x y :: map2 f xs' ys'
  | _, _ => []
  end.

Section WithEntries.

(** The entries and the arithmetic of the numeric backend on them. *)
Variable R : Type.
Variable zero : R.
Variables add sub mul div : R -> R -> R.
Variables sqrt log : R -> R.

Definition matrix : Type := list (list R).

(** The dense solver and the dense log-determinant of the backend. *)
Variable solve : matrix -> matrix -> matrix.       (* A^-1 B *)
Variable logdet_dense : matrix -> R.

(** Modelled from the spec: the four variants of a structured operator
    (section 3): a full matrix, the vector of the diagonal entries, a
    scalar and a size, a factor of shape n by k. *)
Inductive operator : Type :=
| Dense (mat : matrix)
| Diagonal (diag : list R)
| UniformDiagonal (scalar : R) (n : nat)
| LowRank (factor : matrix).

(** Modelled from the spec: the class of an operator of
    [stheno/spd.py], which the tests read with [type]. *)
Definition structure_of (A : operator) : structure :=
  match A with
  | Dense _ => SDense
  | Diagonal _ => SDiagonal
  | UniformDiagonal _ _ => SUniformDiagonal
  | LowRank _ => SLowRank
  end.

Definition sum (xs : list R) : R := fold_right add zero xs.

Definition dot (xs ys : list R) : R := sum (map2 mul xs ys).

(** The matrix with the entries [d] on the diagonal and [zero]
    elsewhere. *)
Definition diag_matrix (d : list R) : matrix :=
  map (fun i =>
         map (fun j => if Nat.eqb i j then nth i d zero else zero)
           (seq 0 (List.length d)))
    (seq 0 (List.length d)).

(** Modelled from the spec: [shape] of [stheno/spd.py], the pair
    [(n, n)] (section 4.1). *)
Definition shape (A : operator) : nat * nat :=
  match A with
  | Dense m => (List.length m, List.length m)
  | Diagonal d => (List.length d, List.length d)
  | UniformDiagonal _ n => (n, n)
  | LowRank f => (List.length f, List.length f)
  end.

(** Modelled from the spec: [mat] of [stheno/spd.py], the dense form
    (section 4.1): the matrix itself, the diagonal matrix of the
    entries, the scalar times the identity, the factor times its
    transpose. *)
Definition mat (A : operator) : matrix :=
  match A with
  | Dense m => m
  | Diagonal d => diag_matrix d
  | UniformDiagonal a n => diag_matrix (repeat a n)
  | LowRank f => map (fun row_i => map (fun row_j => dot row_i row_j) f) f
  end.

(** Modelled from the spec: [diag] of [stheno/spd.py], the diagonal
    entries (section 4.1), which for a diagonal operator do not go
    through [mat]. *)
Definition diag (A : operator) : list R :=
  match A with
  | Dense m => map (fun i => nth i (nth i m []) zero) (seq 0 (List.length m))
  | Diagonal d => d
  | UniformDiagonal a n => repeat a n
  | LowRank f => map (fun row => dot row row) f
  end.

(** The elementwise sum and product of two dense matrices. *)
Definition mat_add (m1 m2 : matrix) : matrix := map2 (map2 add) m1 m2.

Definition mat_mul (m1 m2 : matrix) : matrix := map2 (map2 mul) m1 m2.

Definition is_diagonal (A : operator) : bool :=
  match A with
  | Diagonal _ | UniformDiagonal _ _ => true
  | _ => false
  end.

(** Modelled from the spec: the sum and the elementwise product of two
    operators of [stheno/spd.py], with the structure of the result as the closure table of
    section 4.1 gives it: uniform diagonal with uniform diagonal stays
    uniform diagonal, diagonal with diagonal (uniform or not) is
    diagonal, anything else is dense; for two low-rank operators the
    table's first entry, dense, is taken. *)
Definition combine_with (op : R -> R -> R) (A B : operator) : operator :=
  match A, B with
  | UniformDiagonal a n, UniformDiagonal b _ => UniformDiagonal (op a b) n
  | _, _ =>
      if is_diagonal A && is_diagonal B
      then Diagonal (map2 op (diag A) (diag B))
      else Dense (map2 (map2 op) (mat A) (mat B))
  end.

(** Modelled from the spec: [A + B] of [stheno/spd.py]. *)
Definition op_add (A B : operator) : operator := combine_with add A B.

(** Modelled from the spec: [A * B] of [stheno/spd.py], elementwise. *)
Definition op_mul (A B : operator) : operator := combine_with mul A B.

(** Modelled from the spec: [A + c] of [stheno/spd.py] for a plain
    scalar [c]: a scalar shifts every entry, so the result is dense
    (section 4.1). *)
Definition add_scalar (A : operator) (c : R) : operator :=
  Dense (map (map (fun x => add x c)) (mat A)).

(** Modelled from the spec: [c + A] of [stheno/spd.py]. *)
Definition scalar_add (c : R) (A : operator) : operator :=
  Dense (map (map (fun x => add c x)) (mat A)).

(** Modelled from the spec: [A * c] of [stheno/spd.py] for a plain
    scalar [c]: the structure is kept (section 4.1); for a low-rank
    operator the factor is scaled by the square root. *)
Definition mul_scalar (A : operator) (c : R) : operator :=
  match A with
  | Dense m => Dense (map (map (fun x => mul x c)) m)
  | Diagonal d => Diagonal (map (fun x => mul x c) d)
  | UniformDiagonal a n => UniformDiagonal (mul a c) n
  | LowRank f => LowRank (map (map (fun x => mul x (sqrt c))) f)
  end.

(** Modelled from the spec: [c * A] of [stheno/spd.py]. *)
Definition scalar_mul (c : R) (A : operator) : operator :=
  match A with
  | Dense m => Dense (map (map (fun x => mul c x)) m)
  | Diagonal d => Diagonal (map (fun x => mul c x) d)
  | UniformDiagonal a n => UniformDiagonal (mul c a) n
  | LowRank f => LowRank (map (map (fun x => mul (sqrt c) x)) f)
  end.

(** Modelled from the spec: the closure table of section 4.1 for two
    operators, read off row by row. *)
Definition closure_table (a b : structure) : structure :=
  match a, b with
  | SDense, _ => SDense
  | SDiagonal, SDense => SDense
  | SDiagonal, SDiagonal => SDiagonal
  | SDiagonal, SUniformDiagonal => SDiagonal
  | SDiagonal, SLowRank => SDense
  | SUniformDiagonal, SDense => SDense
  | SUniformDiagonal, SDiagonal => SDiagonal
  | SUniformDiagonal, SUniformDiagonal => SUniformDiagonal
  | SUniformDiagonal, SLowRank => SDense
  | SLowRank, _ => SDense
  end.

(** Dense linear algebra on lists of rows. *)
Definition column (j : nat) (m : matrix) : list R :=
  map (fun row => nth j row zero) m.

Definition transpose (m : matrix) : matrix :=
  map (fun j => column j m) (seq 0 (List.length (hd [] m))).

Definition matmul (m1 m2 : matrix) : matrix :=
  map (fun row => map (fun col => dot row col) (transpose m2)) m1.

(** Modelled from the spec: [inv_prod] of [stheno/spd.py], [A^-1 B]
    (section 4.1): the dense solver for a dense operator, a division of
    the rows for a diagonal one, and the singular operator error for a
    low-rank one, which is singular by construction. *)
Definition inv_prod (A : operator) (B : matrix) : outcome matrix :=
  match A with
  | Dense m => Returned (solve m B)
  | Diagonal d => Returned (map2 (fun di row => map (fun x => div x di) row) d B)
  | UniformDiagonal a _ => Returned (map (map (fun x => div x a)) B)
  | LowRank _ => singular
  end.

(** Modelled from the spec: [quadratic_form] of [stheno/spd.py],
    [a^t A^-1 b] with [b = a] when only [a] is given (section 4.1); it
    needs the inverse. *)
Definition quadratic_form (A : operator) (a : matrix) (b : option matrix)
  : outcome matrix :=
  let b' := match b with Some b0 => b0 | None => a end in
  match inv_prod A b' with
  | Returned x => Returned (matmul (transpose a) x)
  | Raised e => Raised e
  end.

(** Modelled from the spec: [quadratic_form_diag] of [stheno/spd.py],
    the diagonal of the quadratic form (section 4.1). *)
Definition quadratic_form_diag (A : operator) (a : matrix) (b : option matrix)
  : outcome (list R) :=
  match quadratic_form A a b with
  | Returned q => Returned (map (fun i => nth i (nth i q []) zero)
                             (seq 0 (List.length q)))
  | Raised e => Raised e
  end.

(** Modelled from the spec: [mah_dist2] of [stheno/spd.py], the squared
    Mahalanobis distances of the columns of [a], relative to those of
    [b] when [b] is given, under [A^-1] (section 4.1). *)
Definition mah_dist2 (A : operator) (a : matrix) (b : option matrix)
  : outcome (list R) :=
  let d := match b with
           | Some b0 => map2 (map2 sub) a b0
           | None => a
           end in
  quadratic_form_diag A d None.

(** Modelled from the spec: [logdet] of [stheno/spd.py] (section 4.1):
    the dense log-determinant, the sum of the logarithms of the
    diagonal, and the error for a low-rank operator, which is treated
    as singular. *)
Definition logdet (A : operator) : outcome R :=
  match A with
  | Dense m => Returned (logdet_dense m)
  | Diagonal d => Returned (sum (map log d))
  | UniformDiagonal a n => Returned (sum (repeat (log a) n))
  | LowRank _ => singular
  end.

(** Modelled from the spec: the rank of a low-rank operator of
    [stheno/spd.py], the number of columns of its factor. *)
Definition rank (f : matrix) : nat := List.length (hd [] f).

End WithEntries.

Arguments Dense {R} mat.
Arguments Diagonal {R} diag.
Arguments UniformDiagonal {R} scalar n.
Arguments LowRank {R} factor.
Arguments structure_of {R} A.
Arguments shape {R} A.
Arguments rank {R} f.

End SPD.

(* ================================================================== *)
(** * The graph of processes                                           *)
(* ================================================================== *)

Module Graph.

Section WithAlgebra.

(** The inputs [x] are fixed: a kernel is taken at [(x, x)], which is a
    matrix, and a mean and the observed values at [x], which are
    vectors.  The arithmetic of the backend on them: *)
Variable mat : Type.
Variable vec : Type.
Variable mzero mone : mat.
Variable madd msub mmul : mat -> mat -> mat.
Variable mtrans : mat -> mat.
Variable minv : mat -> option mat.       (* [None] for a singular matrix *)
Variable vzero : vec.
Variable vadd vsub : vec -> vec -> vec.
Variable mul_mv : mat -> vec -> vec.

(** The laws of this arithmetic that the self-sum uses. *)
Record laws : Prop := {
  madd_comm : forall a b, madd a b = madd b a;
  madd_assoc : forall a b c, madd a (madd b c) = madd (madd a b) c;
  madd_zero : forall a, madd a mzero = a;
  mtrans_add : forall a b, mtrans (madd a b) = madd (mtrans a) (mtrans b);
  mtrans_zero : mtrans mzero = mzero;
  mmul_add : forall a b c, mmul (madd a b) c = madd (mmul a c) (mmul b c);
  mmul_zero : forall c, mmul mzero c = mzero;
  minv_right : forall a ai, minv a = Some ai -> mmul a ai = mone;
  mul_mv_add : forall a b v, mul_mv (madd a b) v = vadd (mul_mv a v) (mul_mv b v);
  mul_mv_zero : forall v, mul_mv mzero v = vzero;
  mul_mv_one : forall v, mul_mv mone v = v;
  vadd_zero_left : forall v, vadd vzero v = v;
  vsub_zero : forall v, vsub v vzero = v
}.

(** Modelled from the spec: the module [stheno/graph.py] ([Graph], [GP]
    and the conditioning) is not among the sources; only its tests are.
    This is the registry of section 4.5: the registered processes are
    the numbers below [size], with the table of the means and the table
    of the kernels of the pairs. *)
Record graph : Type := mkGraph {
  size : nat;
  means : nat -> vec;
  kernels : nat -> nat -> mat
}.

(** Modelled from the spec: [Graph()] of [stheno/graph.py], the
    registry without processes. *)
Definition empty : graph :=
  {| size := 0; means := fun _ => vzero; kernels := fun _ _ => mzero |}.

(** Modelled from the spec: [GP(kernel, graph=g)] of
    [stheno/graph.py], a new process with
    zero mean, independent of the registered ones (section 4.5,
    [register]). *)
Definition GP (k : mat) (g : graph) : graph * nat :=
  let p := size g in
  ({| size := S p;
      means := fun i => if Nat.eqb i p then vzero else means g i;
      kernels := fun i j =>
        if Nat.eqb i p && Nat.eqb j p then k
        else if Nat.eqb i p || Nat.eqb j p then mzero
        else kernels g i j |},
   p).

(** Modelled from the spec: the sum of two processes of the graph,
    [p + q] of [stheno/graph.py] (section 4.5, [sum]).  The mean is the sum of the means.  The
    cross-covariance with a process [r] is
    [cross-cov(p, r) + cross-cov(q, r)]; the entry for the pair in the
    other order is its transpose; the kernel of the sum is the
    cross-covariance of the sum with itself by the same rule,
    [cross-cov(p, p + q) + cross-cov(q, p + q)]. *)
Definition sum (g : graph) (p q : nat) : graph * nat :=
  let s := size g in
  let left r := madd (kernels g p r) (kernels g q r) in
  let right r := mtrans (left r) in
  ({| size := S s;
      means := fun i =>
        if Nat.eqb i s then vadd (means g p) (means g q) else means g i;
      kernels := fun i j =>
        if Nat.eqb i s && Nat.eqb j s then madd (right p) (right q)
        else if Nat.eqb i s then left j
        else if Nat.eqb j s then right i
        else kernels g i j |},
   s).

(** The sum of [n] copies of the process [p], from the left, as the
    test writes it: [p + p + ... + p]; one copy is [p] itself. *)
Fixpoint self_sum (n : nat) (g : graph) (p : nat) : graph * nat :=
  match n with
  | O => (g, p)
  | S O => (g, p)
  | S n' => let (g', s) := self_sum n' g p in sum g' s p
  end.

(** Modelled from the spec: [condition] of [stheno/graph.py],
    conditioning on the observation [y] of the process [obs]
    (section 4.5): the posterior graph, with
    [mean(f) + cross-cov(f, x) K(x,x)^-1 (y - mean(x))] for the mean of
    [f] and
    [cov(f, h) - cross-cov(f, x) K(x,x)^-1 cross-cov(x, h)^t] for the
    kernel of [f] and [h]; nothing when [K(x,x)] has no inverse. *)
Definition condition (g : graph) (obs : nat) (y : vec) : option graph :=
  match minv (kernels g obs obs) with
  | None => None
  | Some ki =>
      Some {| size := size g;
              means := fun f =>
                vadd (means g f)
                  (mul_mv (mmul (kernels g f obs) ki) (vsub y (means g obs)));
              kernels := fun f h =>
                msub (kernels g f h)
                  (mmul (mmul (kernels g f obs) ki) (mtrans (kernels g obs h))) |}
  end.

(** [n] times a matrix and [n] times a vector. *)
Definition mscale (n : nat) (a : mat) : mat := Nat.iter n (madd a) mzero.

Definition vscale (n : nat) (v : vec) : vec := Nat.iter n (vadd v) vzero.

End WithAlgebra.

Arguments size {mat vec} g.
Arguments means {mat vec} g _.
Arguments kernels {mat vec} g _ _.

End Graph.

(* ================================================================== *)
(** * Concrete instances                                               *)
(* ================================================================== *)

Module CacheExample.

Import PyCache.

(** Integer matrices as lists of rows, and their transpose. *)
Definition matrix : Type := list (list Z).

Definition column (j : nat) (m : matrix) : list Z :=
  map (fun row => nth j row 0) m.

Definition mat_transpose (m : matrix) : matrix :=
  map (fun j => column j m) (seq 0 (List.length (hd [] m))).

(** Two kernel objects and two inputs. *)
Definition k_sum : value := VObj 9001 "Sum" "EQ() + Linear()".
Definition k_eq : value := VObj 9002 "EQ" "EQ()".
Definition k_linear : value := VObj 9003 "Linear" "Linear()".
Definition x1 : value := VObj 7001 "ndarray" "[0. 1.]".
Definition x2 : value := VObj 7002 "ndarray" "[2. 3. 4.]".

(** An array made after [x1] was freed, which got the address of [x1],
    and two floats of the same value. *)
Definition x1_reused : value := VObj 7001 "ndarray" "[5. 6. 7.]".
Definition half : value := VObj 7003 "float" "0.5".
Definition half' : value := VObj 7004 "float" "0.5".

(** A kernel whose output depends on its input: the length of the
    printed array. *)
Definition by_length : value -> list value -> M matrix matrix :=
  fun _ inputs w =>
    (Returned
       match inputs with
       | [VObj _ _ payload] => [[Z.of_nat (String.length payload)]]
       | _ => []
       end, w).

(** A kernel whose [__call__] does not use the cache. *)
Definition plain (out : matrix) : value -> list value -> M matrix matrix :=
  fun _ _ w => (Returned out, w).

Definition k12 : matrix := [[1; 2; 3]; [4; 5; 6]].

(** A [__call__] that returns [cache.depth], and one that calls the
    cached [__call__] of the kernel [k_eq] on its own inputs. *)
Definition probe : value -> list value -> M Z Z :=
  fun _ _ w => (Returned (depth (the_cache w)), w).

Definition nested : value -> list value -> M Z Z :=
  fun _ inputs => cache Z (fun t => t) probe k_eq inputs.

(** The world after the kernel [k_eq] has been called on [(x2, x1)]
    through a new cache. *)
Definition w21 : world matrix :=
  snd (cache matrix mat_transpose (plain k12) k_eq [x2; x1] fresh_world).

(** The world after [k_sum], whose computation calls [k_eq], has been
    called through a new cache, and the world after a call of
    [k_linear] that follows. *)
Definition w_sum : world Z :=
  snd (cache Z (fun t => t) nested k_sum [x1] fresh_world).

Definition w_linear : world Z :=
  snd (cache Z (fun t => t) probe k_linear [x1] w_sum).

(** The depths the log records at the starts of computations, in the
    order of the records. *)
Fixpoint logged_depths (l : list event) : list Z :=
  match l with
  | [] => []
  | LogMissStart _ d :: l' => d :: logged_depths l'
  | _ :: l' => logged_depths l'
  end.

End CacheExample.

Module RandomExample.

Import PyRandom.

(** A backend over integer matrices: [convert] leaves a matrix as it is
    and makes a one by one matrix of an [int]; [B.sample] is a fixed
    function of the state of the generator and of the covariance. *)
Definition array : Type := list (list Z).

Definition convert (x : pyobj array) : array :=
  match x with
  | PyNone => []
  | PyInt z => [[z]]
  | Arr a => a
  end.

Definition shape0 (x : pyobj array) : Z := Z.of_nat (List.length (convert x)).

Definition zeros (_ : unit) (rows cols : Z) : array :=
  repeat (repeat 0 (Z.to_nat cols)) (Z.to_nat rows).

Definition fill_diag (x : pyobj array) (d : Z) : array :=
  let v := match x with PyInt z => z | _ => 0 end in
  map (fun i => map (fun j => if Nat.eqb i j then v else 0)
                 (seq 0 (Z.to_nat d)))
    (seq 0 (Z.to_nat d)).

Definition add_rows (r1 r2 : list Z) : list Z :=
  map (fun p => fst p + snd p) (combine r1 r2).

Definition add (x y : pyobj array) : pyobj array :=
  Arr (map (fun p => add_rows (fst p) (snd p)) (combine (convert x) (convert y))).

(** The operators of a matrix: entry by entry with another matrix,
    with an [int] at every entry, and a [TypeError] with [None]. *)
Definition entrywise (f : Z -> Z -> Z) (a b : array) : array :=
  map (fun p => map (fun q => f (fst q) (snd q)) (combine (fst p) (snd p)))
    (combine a b).

Definition object_operator (f : Z -> Z -> Z) (x y : pyobj array)
  : outcome array :=
  match x, y with
  | Arr a, Arr b => Returned (entrywise f a b)
  | Arr a, PyInt z => Returned (map (map (fun e => f e z)) a)
  | PyInt z, Arr a => Returned (map (map (fun e => f z e)) a)
  | _, _ => Raised TypeError
  end.

Definition object_add : pyobj array -> pyobj array -> outcome array :=
  object_operator Z.add.

Definition object_mul : pyobj array -> pyobj array -> outcome array :=
  object_operator Z.mul.

Definition object_pow (a : array) (n : nat) : outcome array :=
  Returned (map (map (fun e => e ^ Z.of_nat n)) a).

Definition draw (s : Z) (covariance : pyobj array) (num : Z) : array :=
  map (fun row => [s * fold_right Z.add 0 row]) (convert covariance).

Definition zero_class (a : array) : bool := false.

(** A normal with mean [(5, 7)] and variance twice the identity, and
    one with the mean left to the constructor. *)
Definition two_by_two : pyobj array := Arr [[2; 0]; [0; 2]].

Definition normal57 : Normal array :=
  Normal_mean_var (Arr [[5]; [7]]) two_by_two.

Definition normal0 : Normal array :=
  Normal_construct_var (fun _ => two_by_two).

(** A normal whose mean is the [int] 5. *)
Definition normal5 : Normal array :=
  Normal_mean_var (PyInt 5) two_by_two.

End RandomExample.

Module SPDExample.

Import SPD.

(** Operators of size three over the integers. *)
Definition diag123 : operator Z := Diagonal [1; 2; 3].
Definition five_identity : operator Z := UniformDiagonal 5 3.
Definition dense3 : operator Z := Dense [[1; 2; 3]; [4; 5; 6]; [7; 8; 9]].
Definition low_rank32 : matrix Z := [[1; 0]; [0; 1]; [1; 1]].

End SPDExample.

Module GraphExample.

(** One by one matrices over the integers: the inverse exists for 1
    and -1. *)
Definition inverse (k : Z) : option Z :=
  if k =? 1 then Some 1 else if k =? -1 then Some (-1) else None.

(** The graph with one process of unit kernel, and the sum of five
    copies of the process in it. *)
Definition one_gp : Graph.graph Z Z :=
  fst (Graph.GP Z Z 0 0 1 (Graph.empty Z Z 0 0)).

Definition five_copies : Graph.graph Z Z * nat :=
  Graph.self_sum Z Z Z.add (fun k => k) Z.add 5 one_gp 0.

End GraphExample.

(* ================================================================== *)
(** * cache.py: the cache of the backend calls                         *)
(* ================================================================== *)

Module PyLab.

Import PyCache.

(** Python's [+] on two tuples. *)
Definition tuple_add (a b : key) : key :=
  match a, b with
  | KTuple xs, KTuple ys => KTuple (xs ++ ys)
  | _, _ => a
  end.

(** [sorted(items, key=lambda x: x[0])]: a stable sort of the pairs by
    their names, in the order of Python's strings. *)
Fixpoint insert_item (x : string * value) (l : list (string * value))
  : list (string * value) :=
  match l with
  | [] => [x]
  | y :: l' =>
      if String.leb (fst x) (fst y) then x :: l else y :: insert_item x l'
  end.

Definition sorted (items : list (string * value)) : list (string * value) :=
  fold_right insert_item [] items.

(** [tuple(sorted(kw_args.items(), key=lambda x: x[0]))]: the tuple of
    the pairs [(name, value)]. *)
Definition items_tuple (kw_args : list (string * value)) : value :=
  VTuple (map (fun kv => VTuple [VStr (fst kv); snd kv]) (sorted kw_args)).

(** The key that [call_cached] builds: the name of the function, the
    resolved arguments and, when there are keyword arguments, the
    resolved sorted items.  [kw_args] is the dictionary of the keyword
    arguments, in the order of the call. *)
Definition lab_key (f : string) (args : list value)
    (kw_args : list (string * value)) : key :=
  let key := KTuple [KStr f] in
  let key := tuple_add key (_resolve (VTuple args)) in
  if (0 <? List.length kw_args)%nat
  then tuple_add key (_resolve (items_tuple kw_args))
  else key.

Section WithTensor.

Variable tensor : Type.

(** [getattr(B, f)] applied to the arguments and the keyword
    arguments: the function [f] of the backend, which returns or
    raises. *)
Definition backend : Type :=
  string -> list value -> list (string * value) -> outcome tensor.

(** What [call_cached] reads and writes: the attribute [_cache_lab] of
    the cache and the records of [log_cache_lab], which are the names of
    the functions that were hit. *)
Record lab : Type := mkLab {
  _cache_lab : dict tensor;
  log_lab : list string
}.

Definition lab_init : lab := {| _cache_lab := []; log_lab := [] |}.

(** [call_cached], the function that [Cache.__getattr__] returns for
    the name [f], at the arguments and the keyword arguments; Python
    reaches [__getattr__] for a name that is not an attribute of the
    cache itself. *)
Definition call_cached (B : backend) (f : string) (args : list value)
    (kw_args : list (string * value)) (c : lab) : outcome tensor * lab :=
  let key := lab_key f args kw_args in
  match dict_get key (_cache_lab c) with
  | Some out =>
      (Returned out, {| _cache_lab := _cache_lab c; log_lab := log_lab c ++ [f] |})
  | None =>
      match B f args kw_args with
      | Raised e => (Raised e, c)
      | Returned out =>
          let c' := {| _cache_lab := dict_set key out (_cache_lab c);
                       log_lab := log_lab c |} in
          match dict_get key (_cache_lab c') with
          | Some out' => (Returned out', c')
          | None => (Raised KeyError, c')
          end
      end
  end.

End WithTensor.

Arguments _cache_lab {tensor} _.
Arguments log_lab {tensor} _.
Arguments lab_init {tensor}.

End PyLab.

(* ================================================================== *)
(** * random.py: the arithmetic of [Random]                            *)
(* ================================================================== *)

Module PyRandomOps.

Import PyRandom.

Section WithBackend.

Variable array : Type.
Variable dtype : Type.
Variable isinstance_Zero : array -> bool.
Variable convert_AbstractMatrix : pyobj array -> array.
Variable B_dtype : pyobj array -> dtype.
Variable B_shape0 : pyobj array -> Z.
Variable B_zeros : dtype -> Z -> Z -> array.
Variable py_add : pyobj array -> pyobj array -> pyobj array.   (* a + b *)
Variable object_add object_mul : pyobj array -> pyobj array -> outcome array.
Variable object_pow : array -> nat -> outcome array.

(** The methods behind [-a] and [a / b] of an object of the backend,
    which return an object of the backend or raise, and the float that
    [x / y] is for two [int]s of which [y] is not 0. *)
Variable object_neg : array -> outcome array.
Variable object_truediv : pyobj array -> pyobj array -> outcome array.
Variable int_truediv : Z -> Z -> array.

Abbreviation add_ :=
  (__add__ array dtype isinstance_Zero convert_AbstractMatrix B_dtype B_shape0
     B_zeros py_add object_add).
Abbreviation mul_ :=
  (__mul__ array dtype isinstance_Zero convert_AbstractMatrix B_dtype B_shape0
     B_zeros object_mul object_pow).

(** [-a] and [a / b] at an operand of the caller's choice: Python's own
    on [int]s, where a division by 0 is a [ZeroDivisionError]; the
    method of the object of the backend among the operands; a
    [TypeError] with [None]. *)
Definition operator_neg (a : pyobj array) : outcome (pyobj array) :=
  match a with
  | PyInt x => Returned (PyInt (- x))
  | Arr a' => backend_object array (object_neg a')
  | PyNone => Raised TypeError
  end.

Definition operator_truediv (a b : pyobj array) : outcome (pyobj array) :=
  match a, b with
  | PyInt _, PyInt 0 => Raised ZeroDivisionError
  | PyInt x, PyInt y => Returned (Arr (int_truediv x y))
  | Arr _, _ | _, Arr _ => backend_object array (object_truediv a b)
  | _, _ => Raised TypeError
  end.

(** [Random.__radd__] and [Random.__rmul__] on a [Normal]:
    [self + other] and [self * other]. *)
Definition __radd__ (other : operand array) : N array (Normal array * operand array) :=
  add_ other.

Definition __rmul__ (other : operand array) : N array (Normal array * operand array) :=
  mul_ other.

(** [Random.__neg__] on a [Normal]: [-1 * self], which Python turns into
    [self.__rmul__(-1)], since an [int] has no product with a
    [Normal]. *)
Definition __neg__ : N array (Normal array * operand array) :=
  __rmul__ (OObject (PyInt (-1))).

(** [Random.__sub__] on a [Normal], [self + (-other)], at an operand
    that is not a [Random]: [-other] is evaluated first, and what it
    raises leaves the method. *)
Definition sub_object (c : pyobj array) : N array (Normal array * operand array) :=
  bind array (eval array (operator_neg c)) (fun c' => add_ (OObject c')).

(** [Random.__sub__] on a [Normal] at another [Normal]: [-other] is
    [other.__neg__()], which resolves the attributes of [other]; the
    method returns the difference and [other]. *)
Definition sub_normal (other : Normal array) : N array (Normal array * Normal array) :=
  fun n =>
    match __neg__ other with
    | (Raised e, _) => (Raised e, n)
    | (Returned (negated, _), other') =>
        match add_ (ONormal negated) n with
        | (Raised e, n') => (Raised e, n')
        | (Returned (difference, _), n') => (Returned (difference, other'), n')
        end
    end.

(** The method [Random.__rsub__] on a [Normal], [(-self) + other], at
    an operand that is not a [Random].  Python calls it for [c - N]
    when [c] has no difference with a [Normal] of its own, as an [int]
    has none. *)
Definition rsub_object (c : pyobj array) : N array (Normal array) :=
  fun n =>
    match __neg__ n with
    | (Raised e, n') => (Raised e, n')
    | (Returned (negated, _), n') =>
        match add_ (OObject c) negated with
        | (Raised e, _) => (Raised e, n')
        | (Returned (difference, _), _) => (Returned difference, n')
        end
    end.

(** [Random.__div__] and [Random.__truediv__] on a [Normal],
    [self * (1 / other)], at an operand that is not a [Random]:
    [1 / other] is evaluated first, and what it raises leaves the
    method. *)
Definition __div__ (c : pyobj array) : N array (Normal array * operand array) :=
  bind array (eval array (operator_truediv (PyInt 1) c))
    (fun r => mul_ (OObject r)).

Definition __truediv__ (c : pyobj array) : N array (Normal array * operand array) :=
  __div__ c.

End WithBackend.

End PyRandomOps.

(* ================================================================== *)
(** * More concrete instances                                          *)
(* ================================================================== *)

Module ExtraExample.

Import PyCache.

(** A kernel whose [__call__] raises. *)
Definition failing : value -> list value -> M CacheExample.matrix CacheExample.matrix :=
  fun _ _ w => (Raised (OtherError "ValueError"), w).

(** The world after the kernel [k_eq] has been called on the pair of
    ints [(1, 2)]. *)
Definition w12 : world CacheExample.matrix :=
  snd (cache CacheExample.matrix CacheExample.mat_transpose
         (CacheExample.plain CacheExample.k12) CacheExample.k_eq
         [VTuple [VInt 1; VInt 2]] fresh_world).

(** A backend with the one function [ones], and one without any. *)
Definition ones_backend : PyLab.backend CacheExample.matrix :=
  fun f _ _ =>
    if String.eqb f "ones" then Returned [[1; 1]]
    else Raised (OtherError "AttributeError").

Definition no_backend : PyLab.backend CacheExample.matrix :=
  fun _ _ _ => Raised (OtherError "AttributeError").

Definition shape_then_dtype : list (string * value) :=
  [("shape"%string, VInt 2); ("dtype"%string, VStr "float")].

Definition dtype_then_shape : list (string * value) :=
  [("dtype"%string, VStr "float"); ("shape"%string, VInt 2)].

(** The world after the kernel [k_linear] has been called on [x1]
    through a new cache. *)
Definition w_linear1 : world Z :=
  snd (cache Z (fun t => t) CacheExample.probe CacheExample.k_linear
         [CacheExample.x1] fresh_world).

End ExtraExample.

Module FloatExample.

Import PyRandom.

(** A backend with floats and matrices, over the rationals: the
    operators work entry by entry, a float with every entry of a
    matrix, and raise a [TypeError] with [None]. *)
Inductive number : Type :=
| Float (q : Q)
| Matrix (rows : list (list Q)).

Definition convert (x : pyobj number) : number :=
  match x with
  | PyNone => Matrix []
  | PyInt z => Matrix [[inject_Z z]]
  | Arr (Float q) => Matrix [[q]]
  | Arr (Matrix rows) => Matrix rows
  end.

Definition shape0 (x : pyobj number) : Z :=
  match convert x with
  | Matrix rows => Z.of_nat (List.length rows)
  | Float _ => 0
  end.

Definition zeros (_ : unit) (rows cols : Z) : number :=
  Matrix (repeat (repeat (inject_Z 0) (Z.to_nat cols)) (Z.to_nat rows)).

Definition zero_class (a : number) : bool := false.

Definition entrywise (f : Q -> Q -> Q) (a b : number) : number :=
  match a, b with
  | Float x, Float y => Float (Qred (f x y))
  | Float x, Matrix rows => Matrix (map (map (fun e => Qred (f x e))) rows)
  | Matrix rows, Float y => Matrix (map (map (fun e => Qred (f e y))) rows)
  | Matrix rows, Matrix rows' =>
      Matrix (map (fun p => map (fun q => Qred (f (fst q) (snd q)))
                              (combine (fst p) (snd p)))
                (combine rows rows'))
  end.

Definition number_of (x : pyobj number) : option number :=
  match x with
  | PyNone => None
  | PyInt z => Some (Float (inject_Z z))
  | Arr a => Some a
  end.

Definition object_operator (f : Q -> Q -> Q) (x y : pyobj number)
  : outcome number :=
  match number_of x, number_of y with
  | Some a, Some b => Returned (entrywise f a b)
  | _, _ => Raised TypeError
  end.

Definition object_add : pyobj number -> pyobj number -> outcome number :=
  object_operator Qplus.

Definition object_mul : pyobj number -> pyobj number -> outcome number :=
  object_operator Qmult.

Definition object_pow (a : number) (n : nat) : outcome number :=
  Returned (entrywise (fun e _ => Qpower e (Z.of_nat n)) a (Float (inject_Z 0))).

Definition object_neg (a : number) : outcome number :=
  Returned (entrywise (fun e _ => Qopp e) a (Float (inject_Z 0))).

Definition int_truediv (x y : Z) : number :=
  Float (Qred (Qdiv (inject_Z x) (inject_Z y))).

(** The quotient by a float, which is not to be zero; this backend
    has no quotient by a matrix. *)
Definition object_truediv (x y : pyobj number) : outcome number :=
  match y with
  | Arr (Float q) =>
      if Qeq_bool q (inject_Z 0) then Raised ZeroDivisionError
      else object_operator Qdiv x y
  | _ => Raised TypeError
  end.

Definition add (x y : pyobj number) : pyobj number :=
  Arr (entrywise Qplus (convert x) (convert y)).

(** Matrices of integers; a normal with mean [(5, 7)] and variance
    twice the identity, and one with the mean left to the
    constructor. *)
Definition matrix_of (rows : list (list Z)) : pyobj number :=
  Arr (Matrix (map (map inject_Z) rows)).

Definition two_by_two : pyobj number := matrix_of [[2; 0]; [0; 2]].

Definition normal57 : Normal number :=
  Normal_mean_var (matrix_of [[5]; [7]]) two_by_two.

Definition normal0 : Normal number :=
  Normal_construct_var (fun _ => two_by_two).

End FloatExample.

(* ================================================================== *)
(** * Properties of keys and dictionaries                              *)
(* ================================================================== *)

Lemma key_eqb_tuple (xs ys : list key) :
  key_eqb (KTuple xs) (KTuple ys) = keys_eqb xs ys.
Proof.
  destruct xs; reflexivity.
Qed.

Lemma key_eqb_refl (k : key) : key_eqb k k = true.
Proof.
  induction k as [z|s|b|ks IH].
  - apply Z.eqb_refl.
  - apply String.eqb_refl.
  - now destruct b.
  - rewrite key_eqb_tuple.
    induction IH as [|k Hk ks _ IHks]; simpl; [reflexivity|].
    now rewrite Hk, IHks.
Qed.

Lemma dict_get_set_same {A : Type} (k : key) (v : A) (d : dict A) :
  dict_get k (dict_set k v d) = Some v.
Proof.
  induction d as [|[k' v'] d IH]; simpl.
  - now rewrite key_eqb_refl.
  - destruct (key_eqb k' k) eqn:E; simpl; rewrite E; [reflexivity|exact IH].
Qed.

(* ================================================================== *)
(** * The decorator [cache], path by path                              *)
(* ================================================================== *)

Section CachePaths.

Import PyCache.

Variable tensor : Type.
Variable transpose : tensor -> tensor.

Abbreviation cached := (cache tensor transpose).
Abbreviation computation := (value -> list value -> M tensor tensor).

Implicit Types (f g : computation) (self : value) (inputs : list value)
  (w : world tensor).

Ltac run_cache :=
  unfold cache, try_except_KeyError, bind, __getitem__, __setitem__, debug,
    get_depth, set_depth, ret, lookup in *; simpl in *.

Lemma cache_hit f self inputs w out :
  lookup (forward_key self inputs) w = Some out ->
  cached f self inputs w = (Returned out, logged (LogHit (type_name self)) w).
Proof.
  intros H. run_cache. now rewrite H.
Qed.

Lemma cache_reversed_hit f self inputs w stored :
  lookup (forward_key self inputs) w = None ->
  lookup (reversed_key self inputs) w = Some stored ->
  cached f self inputs w =
    (Returned (transpose stored), logged (LogReversedHit (type_name self)) w).
Proof.
  intros H1 H2. run_cache. now rewrite H1, H2.
Qed.

Lemma cache_miss_returned f self inputs w out w1 :
  lookup (forward_key self inputs) w = None ->
  lookup (reversed_key self inputs) w = None ->
  f self inputs (entered self w) = (Returned out, w1) ->
  cached f self inputs w = (Returned out, left_with self inputs out w1).
Proof.
  intros H1 H2 Hf. run_cache. rewrite H1, H2.
  unfold entered in Hf; simpl in Hf. rewrite Hf.
  now rewrite dict_get_set_same.
Qed.

Lemma cache_miss_raised f self inputs w e w1 :
  lookup (forward_key self inputs) w = None ->
  lookup (reversed_key self inputs) w = None ->
  f self inputs (entered self w) = (Raised e, w1) ->
  cached f self inputs w = (Raised e, w1).
Proof.
  intros H1 H2 Hf. run_cache. rewrite H1, H2.
  unfold entered in Hf; simpl in Hf. now rewrite Hf.
Qed.

End CachePaths.

(* ================================================================== *)
(** * Key resolution                                                   *)
(* ================================================================== *)

Section Resolve.

Import PyCache.

Lemma keys_eqb_resolved (xs ys : list value) :
  keys_eqb (map _resolve xs) (map _resolve ys) = true <->
  Forall2 (fun a b => collide a b = true) xs ys.
Proof.
  revert ys; induction xs as [|a xs IH]; intros [|b ys]; cbn [map keys_eqb].
  - split; [constructor | reflexivity].
  - split; [discriminate | intros H; inversion H].
  - split; [discriminate | intros H; inversion H].
  - rewrite andb_true_iff, IH. split.
    + intros [Ha Hxs]. now constructor.
    + intros H; inversion H; subst. now split.
Qed.

Lemma collide_tuples (xs ys : list value) :
  collide (VTuple xs) (VTuple ys) = true <->
  Forall2 (fun a b => collide a b = true) xs ys.
Proof.
  unfold collide at 1.
  change (_resolve (VTuple xs)) with (KTuple (map _resolve xs)).
  change (_resolve (VTuple ys)) with (KTuple (map _resolve ys)).
  rewrite key_eqb_tuple. apply keys_eqb_resolved.
Qed.

Lemma collide_scalars (v w : value) :
  is_scalar v = true -> is_scalar w = true -> collide v w = scalar_eq v w.
Proof.
  destruct v, w; simpl; intros Hv Hw; try discriminate; reflexivity.
Qed.

Lemma collide_objects (v w : value) :
  is_object v = true -> is_object w = true ->
  collide v w = true <-> address v = address w.
Proof.
  destruct v, w; simpl; intros Hv Hw; try discriminate.
  unfold collide; simpl. apply Z.eqb_eq.
Qed.

Lemma coexisting_addresses (objs : list value) (i j : nat) (v w : value) :
  NoDup (map address objs) ->
  nth_error objs i = Some v -> nth_error objs j = Some w -> i <> j ->
  address v <> address w.
Proof.
  intros Hnd Hi Hj Hij Heq.
  apply Hij.
  apply (proj1 (NoDup_nth_error (map address objs)) Hnd).
  - rewrite length_map. apply nth_error_Some. congruence.
  - rewrite !nth_error_map, Hi, Hj. simpl. now rewrite Heq.
Qed.

(** C6.  Key resolution is a function of the key, sensitive to order:
    a tuple and a list resolve to the tuple of their resolved elements,
    so two tuples collide exactly when they collide component by
    component, in order; an [int], a [str] and a [bool] resolve to
    themselves, so two of them collide exactly when Python's [==] holds
    of them; any other object, a float included, resolves to its [id]
    alone: two such objects collide exactly when their ids are equal,
    whatever their classes and states, so objects that exist at the
    same time never collide, equal ones included. *)
Theorem resolve_structural_scalar_identity :
  (forall xs, _resolve (VTuple xs) = KTuple (map _resolve xs)) /\
  (forall xs, _resolve (VList xs) = KTuple (map _resolve xs)) /\
  (forall v, collide v v = true) /\
  (forall xs ys,
      collide (VTuple xs) (VTuple ys) = true <->
      Forall2 (fun a b => collide a b = true) xs ys) /\
  (forall a b, collide a b = false ->
      collide (VTuple [a; b]) (VTuple [b; a]) = false) /\
  (forall z s b,
      _resolve (VInt z) = KInt z /\
      _resolve (VStr s) = KStr s /\
      _resolve (VBool b) = KBool b) /\
  (forall v w, is_scalar v = true -> is_scalar w = true ->
      collide v w = scalar_eq v w) /\
  (forall addr1 cls1 payload1 addr2 cls2 payload2,
      _resolve (VObj addr1 cls1 payload1) = KInt addr1 /\
      (collide (VObj addr1 cls1 payload1) (VObj addr2 cls2 payload2) = true
       <-> addr1 = addr2)) /\
  (forall objs i j v w,
      coexist objs ->
      nth_error objs i = Some v -> nth_error objs j = Some w -> i <> j ->
      collide v w = false).
Proof.
  repeat split; try reflexivity.
  - intros v. apply key_eqb_refl.
  - apply collide_tuples.
  - apply collide_tuples.
  - intros a b Hab. destruct (collide (VTuple [a; b]) (VTuple [b; a])) eqn:E;
      [|reflexivity].
    apply collide_tuples in E. inversion E; subst. congruence.
  - intros v w. apply collide_scalars.
  - unfold collide; simpl. apply Z.eqb_eq.
  - unfold collide; simpl. apply Z.eqb_eq.
  - intros objs i j v w [Hobj Hnd] Hi Hj Hij.
    destruct (collide v w) eqn:E; [|reflexivity].
    exfalso.
    apply (coexisting_addresses objs i j v w Hnd Hi Hj Hij).
    apply collide_objects; [| |exact E].
    + apply (proj1 (Forall_forall _ objs) Hobj). eapply nth_error_In; eassumption.
    + apply (proj1 (Forall_forall _ objs) Hobj). eapply nth_error_In; eassumption.
Qed.

End Resolve.

Lemma resolve_structural_scalar_identity_witness :
  PyCache.collide (VBool true) (VInt 1) = true /\
  PyCache.collide CacheExample.x1 CacheExample.x2 = false /\
  PyCache.collide (VTuple [VInt 1; VInt 2]) (VTuple [VInt 2; VInt 1]) = false.
Proof.
  destruct resolve_structural_scalar_identity
    as (_ & _ & _ & _ & Horder & _ & Hscalar & _ & Halive).
  split; [|split].
  - apply (Hscalar (VBool true) (VInt 1)); reflexivity.
  - apply (Halive [CacheExample.x1; CacheExample.x2] 0%nat 1%nat).
    + split.
      * repeat constructor.
      * repeat constructor; simpl; intuition lia.
    + reflexivity.
    + reflexivity.
    + lia.
  - apply (Horder (VInt 1) (VInt 2)). reflexivity.
Defined.

(** C6, as the claim has it, fails.  An array that is made after [x1]
    was freed and gets the address of [x1] is another object and
    collides with [x1]: the kernel that was called on [x1] returns for
    it the output it stored for [x1], as a hit, where the computation
    returns another output.  And two floats of the same value at
    different addresses do not collide. *)
Lemma distinct_objects_collide :
  CacheExample.x1 <> CacheExample.x1_reused /\
  PyCache.collide CacheExample.x1 CacheExample.x1_reused = true /\
  fst (PyCache.cache CacheExample.matrix CacheExample.mat_transpose
         CacheExample.by_length CacheExample.k_eq [CacheExample.x1]
         PyCache.fresh_world) = PyCache.Returned [[7]] /\
  fst (PyCache.cache CacheExample.matrix CacheExample.mat_transpose
         CacheExample.by_length CacheExample.k_eq [CacheExample.x1_reused]
         (snd (PyCache.cache CacheExample.matrix CacheExample.mat_transpose
                 CacheExample.by_length CacheExample.k_eq [CacheExample.x1]
                 PyCache.fresh_world))) = PyCache.Returned [[7]] /\
  fst (CacheExample.by_length CacheExample.k_eq [CacheExample.x1_reused]
         PyCache.fresh_world) = PyCache.Returned [[10]] /\
  PyCache.collide CacheExample.half CacheExample.half' = false.
Proof.
  split; [discriminate|].
  repeat split; vm_compute; reflexivity.
Qed.

(* ================================================================== *)
(** * Memoisation                                                      *)
(* ================================================================== *)

Section Memoisation.

Import PyCache.

Variable tensor : Type.
Variable transpose : tensor -> tensor.

Abbreviation cached := (cache tensor transpose).
Abbreviation computation := (value -> list value -> M tensor tensor).

Implicit Types (f g : computation) (self : value) (inputs : list value)
  (w : world tensor).

Lemma computations_logged (e : event) w :
  is_miss_start e = false -> computations (logged e w) = computations w.
Proof.
  intros He. unfold computations, logged; simpl.
  rewrite filter_app; simpl. rewrite He. now rewrite app_nil_r.
Qed.

Lemma lookup_left_with self inputs (out : tensor) w1 :
  lookup (forward_key self inputs) (left_with self inputs out w1) = Some out.
Proof. unfold lookup, left_with; simpl. apply dict_get_set_same. Qed.

(** After a call that returned, a second call with the same owner and
    inputs returns the same output whatever the computation is, and
    changes nothing but the log, where it records a hit. *)
Lemma second_call_is_a_hit f g self inputs w out w1 :
  cached f self inputs w = (Returned out, w1) ->
  exists e, is_miss_start e = false /\
            cached g self inputs w1 = (Returned out, logged e w1).
Proof.
  intros Hcall.
  destruct (lookup (forward_key self inputs) w) as [v|] eqn:Hfwd.
  - rewrite (cache_hit _ _ f self inputs w v Hfwd) in Hcall.
    injection Hcall as <- <-.
    exists (LogHit (type_name self)); split; [reflexivity|].
    now apply cache_hit.
  - destruct (lookup (reversed_key self inputs) w) as [s|] eqn:Hrev.
    + rewrite (cache_reversed_hit _ _ f self inputs w s Hfwd Hrev) in Hcall.
      injection Hcall as <- <-.
      exists (LogReversedHit (type_name self)); split; [reflexivity|].
      now apply cache_reversed_hit.
    + destruct (f self inputs (entered self w)) as [[o|e] w'] eqn:Hf.
      * rewrite (cache_miss_returned _ _ f self inputs w o w' Hfwd Hrev Hf)
          in Hcall.
        injection Hcall as <- <-.
        exists (LogHit (type_name self)); split; [reflexivity|].
        apply cache_hit. apply lookup_left_with.
      * rewrite (cache_miss_raised _ _ f self inputs w e w' Hfwd Hrev Hf)
          in Hcall.
        discriminate.
Qed.

(** C1.  Through one cache, with the same owner and inputs: once a call
    has returned, a second call returns the same output without running
    any computation (it leaves the cache as it is and starts no
    computation, whatever the decorated method is), so that a method
    which makes no cached calls of its own is run at most once by the two
    calls; when the forward key is absent and the reversed inputs are
    present, the call returns the transpose of the stored output and
    starts no computation; when both are absent it runs the method,
    stores its output under the forward key and returns the stored
    output. *)
Theorem cache_memoises f self inputs w :
  (forall out w1,
      cached f self inputs w = (Returned out, w1) ->
      forall g, exists w2,
        cached g self inputs w1 = (Returned out, w2) /\
        the_cache w2 = the_cache w1 /\
        computations w2 = computations w1) /\
  ((forall w0, computations (snd (f self inputs w0)) = computations w0) ->
   forall out w1,
      cached f self inputs w = (Returned out, w1) ->
      (computations (snd (cached f self inputs w1)) <= computations w + 1)%nat) /\
  (forall stored,
      lookup (forward_key self inputs) w = None ->
      lookup (reversed_key self inputs) w = Some stored ->
      cached f self inputs w =
        (Returned (transpose stored),
         logged (LogReversedHit (type_name self)) w) /\
      computations (snd (cached f self inputs w)) = computations w) /\
  (forall out w1,
      lookup (forward_key self inputs) w = None ->
      lookup (reversed_key self inputs) w = None ->
      f self inputs (entered self w) = (Returned out, w1) ->
      cached f self inputs w = (Returned out, left_with self inputs out w1) /\
      lookup (forward_key self inputs) (left_with self inputs out w1) = Some out).
Proof.
  split; [|split; [|split]].
  - intros out w1 Hcall g.
    destruct (second_call_is_a_hit f g self inputs w out w1 Hcall)
      as (e & He & Hsecond).
    exists (logged e w1). split; [exact Hsecond|]. split; [reflexivity|].
    now apply computations_logged.
  - intros Hf out w1 Hcall.
    destruct (second_call_is_a_hit f f self inputs w out w1 Hcall)
      as (e & He & Hsecond).
    rewrite Hsecond; simpl. rewrite (computations_logged e w1 He).
    destruct (lookup (forward_key self inputs) w) as [v|] eqn:Hfwd.
    + rewrite (cache_hit _ _ f self inputs w v Hfwd) in Hcall.
      injection Hcall as _ <-. rewrite computations_logged by reflexivity. lia.
    + destruct (lookup (reversed_key self inputs) w) as [s|] eqn:Hrev.
      * rewrite (cache_reversed_hit _ _ f self inputs w s Hfwd Hrev) in Hcall.
        injection Hcall as _ <-. rewrite computations_logged by reflexivity. lia.
      * destruct (f self inputs (entered self w)) as [[o|e'] w'] eqn:Hrun.
        -- rewrite (cache_miss_returned _ _ f self inputs w o w' Hfwd Hrev Hrun)
             in Hcall.
           injection Hcall as _ <-.
           specialize (Hf (entered self w)). rewrite Hrun in Hf; simpl in Hf.
           unfold computations, left_with in *; simpl in *.
           rewrite filter_app in *; simpl in *.
           rewrite !length_app in *; simpl in *. lia.
        -- rewrite (cache_miss_raised _ _ f self inputs w e' w' Hfwd Hrev Hrun)
             in Hcall.
           discriminate.
  - intros stored Hfwd Hrev.
    rewrite (cache_reversed_hit _ _ f self inputs w stored Hfwd Hrev).
    split; [reflexivity|]. simpl. now apply computations_logged.
  - intros out w1 Hfwd Hrev Hrun. split.
    + now apply cache_miss_returned.
    + apply lookup_left_with.
Qed.

(** C10.  A reversed hit stores nothing: when the forward key is absent
    and the reversed inputs are present, any number of calls in a row
    with these inputs leave the cache as it was, each of them returns the
    transpose of the stored output, and each of them logs a reversed
    hit. *)
Theorem reversed_hit_stores_nothing f self inputs w stored (n : nat) :
  lookup (forward_key self inputs) w = None ->
  lookup (reversed_key self inputs) w = Some stored ->
  call_again tensor transpose f self inputs n w =
    (repeat (Returned (transpose stored)) n,
     {| the_cache := the_cache w;
        log := log w ++ repeat (LogReversedHit (type_name self)) n |}).
Proof.
  revert w. induction n as [|n IH]; intros w Hfwd Hrev; simpl.
  - rewrite app_nil_r. now destruct w.
  - rewrite (cache_reversed_hit _ _ f self inputs w stored Hfwd Hrev).
    rewrite (IH (logged (LogReversedHit (type_name self)) w) Hfwd Hrev).
    simpl. now rewrite <- app_assoc.
Qed.

(** C7, as the code has it.  [depth] is 0 in a new cache; a hit and a
    reversed hit leave it as it is; on a miss the decorated method runs
    with [depth] one more than before the call, and [depth] is lowered
    by one when its output has been stored; so a call that returns
    leaves [depth] as it found it, provided the method does (as a method
    that only makes cached calls does, by this very statement).
    [depth] is the nesting level of the computations under way. *)
Theorem depth_is_nesting_level f self inputs w :
  depth (@Cache_init tensor) = 0 /\
  (forall out,
      lookup (forward_key self inputs) w = Some out ->
      the_cache (snd (cached f self inputs w)) = the_cache w) /\
  (forall stored,
      lookup (forward_key self inputs) w = None ->
      lookup (reversed_key self inputs) w = Some stored ->
      the_cache (snd (cached f self inputs w)) = the_cache w) /\
  (forall out w1,
      lookup (forward_key self inputs) w = None ->
      lookup (reversed_key self inputs) w = None ->
      f self inputs (entered self w) = (Returned out, w1) ->
      depth (the_cache (entered self w)) = depth (the_cache w) + 1 /\
      depth (the_cache (snd (cached f self inputs w))) =
        depth (the_cache w1) - 1) /\
  ((forall w0 out w1,
       f self inputs w0 = (Returned out, w1) ->
       depth (the_cache w1) = depth (the_cache w0)) ->
   forall out w',
     cached f self inputs w = (Returned out, w') ->
     depth (the_cache w') = depth (the_cache w)).
Proof.
  split; [reflexivity|]. split; [|split; [|split]].
  - intros out Hfwd. now rewrite (cache_hit _ _ f self inputs w out Hfwd).
  - intros stored Hfwd Hrev.
    now rewrite (cache_reversed_hit _ _ f self inputs w stored Hfwd Hrev).
  - intros out w1 Hfwd Hrev Hrun. split; [reflexivity|].
    now rewrite (cache_miss_returned _ _ f self inputs w out w1 Hfwd Hrev Hrun).
  - intros Hf out w' Hcall.
    destruct (lookup (forward_key self inputs) w) as [v|] eqn:Hfwd.
    + rewrite (cache_hit _ _ f self inputs w v Hfwd) in Hcall.
      now injection Hcall as _ <-.
    + destruct (lookup (reversed_key self inputs) w) as [s|] eqn:Hrev.
      * rewrite (cache_reversed_hit _ _ f self inputs w s Hfwd Hrev) in Hcall.
        now injection Hcall as _ <-.
      * destruct (f self inputs (entered self w)) as [[o|e] w1] eqn:Hrun.
        -- rewrite (cache_miss_returned _ _ f self inputs w o w1 Hfwd Hrev Hrun)
             in Hcall.
           injection Hcall as _ <-. simpl.
           rewrite (Hf _ _ _ Hrun). simpl. lia.
        -- rewrite (cache_miss_raised _ _ f self inputs w e w1 Hfwd Hrev Hrun)
             in Hcall.
           discriminate.
Qed.

End Memoisation.

Section CacheInstances.

Import PyCache CacheExample.

Abbreviation cached_matrix := (cache matrix mat_transpose).

Lemma cache_memoises_witness :
  (exists w2,
      cached_matrix (plain [[0]]) k_eq [x1; x2]
        (left_with k_eq [x1; x2] k12 (entered k_eq fresh_world))
      = (Returned k12, w2) /\
      the_cache w2 =
        the_cache (left_with k_eq [x1; x2] k12 (entered k_eq fresh_world))) /\
  (computations
     (snd (cached_matrix (plain k12) k_eq [x1; x2]
             (left_with k_eq [x1; x2] k12 (entered k_eq fresh_world))))
   <= 0 + 1)%nat /\
  cached_matrix (plain k12) k_eq [x1; x2] w21 =
    (Returned [[1; 4]; [2; 5]; [3; 6]], logged (LogReversedHit "EQ") w21) /\
  lookup (forward_key k_eq [x1; x2])
    (left_with k_eq [x1; x2] k12 (entered k_eq fresh_world)) = Some k12.
Proof.
  pose proof (cache_memoises matrix mat_transpose (plain k12) k_eq [x1; x2]
                fresh_world) as (Hsecond & Honce & _ & Hmiss).
  pose proof (cache_memoises matrix mat_transpose (plain k12) k_eq [x1; x2]
                w21) as (_ & _ & Hrev & _).
  split; [|split; [|split]].
  - destruct (Hsecond k12
                (left_with k_eq [x1; x2] k12 (entered k_eq fresh_world))
                eq_refl (plain [[0]])) as (w2 & H1 & H2 & _).
    exists w2. now split.
  - apply (Honce (fun w0 => eq_refl) k12
             (left_with k_eq [x1; x2] k12 (entered k_eq fresh_world))).
    reflexivity.
  - apply (Hrev k12); reflexivity.
  - apply (Hmiss k12 (entered k_eq fresh_world)); reflexivity.
Defined.

Lemma reversed_hit_stores_nothing_witness :
  call_again matrix mat_transpose (plain k12) k_eq [x1; x2] 3 w21 =
    (repeat (Returned [[1; 4]; [2; 5]; [3; 6]]) 3,
     {| the_cache := the_cache w21;
        log := log w21 ++ repeat (LogReversedHit "EQ") 3 |}).
Proof.
  apply (reversed_hit_stores_nothing matrix mat_transpose (plain k12) k_eq
           [x1; x2] w21 k12 3); reflexivity.
Defined.

Lemma depth_is_nesting_level_witness :
  depth (the_cache (entered k_sum (@fresh_world Z))) = 1 /\
  depth (the_cache w_sum) = depth (the_cache (@fresh_world Z)).
Proof.
  pose proof (depth_is_nesting_level Z (fun t => t) nested k_sum [x1]
                fresh_world) as (_ & _ & _ & Hmiss & Hbalanced).
  split.
  - apply (Hmiss 2 (snd (nested k_sum [x1] (entered k_sum fresh_world))));
      reflexivity.
  - apply (Hbalanced
             (fun w0 out w1 =>
                proj2 (proj2 (proj2 (proj2
                  (depth_is_nesting_level Z (fun t => t) probe k_eq [x1] w0))))
                  (fun w0' out' w1' Hprobe =>
                     f_equal (fun p => depth (the_cache (snd p)))
                       (eq_sym Hprobe))
                  out w1)
             2 w_sum).
    reflexivity.
Defined.

(** C7, as the claim has it, fails.  From a new cache, the kernel [k_sum]
    is called and its computation calls the kernel [k_eq]; then the
    kernel [k_linear] is called.  The computation of [k_eq] reads
    [depth] 2, the later computation of [k_linear] reads [depth] 1, the
    log records the three computations as started at depths 0, 1 and 0,
    and [depth] is 0 again after the calls. *)
Lemma depth_goes_down_after_a_miss :
  cache Z (fun t => t) nested k_sum [x1] fresh_world = (Returned 2, w_sum) /\
  cache Z (fun t => t) probe k_linear [x1] w_sum = (Returned 1, w_linear) /\
  logged_depths (log w_linear) = [0; 1; 0] /\
  depth (the_cache w_sum) = 0 /\
  depth (the_cache w_linear) = 0.
Proof.
  repeat split; vm_compute; reflexivity.
Qed.

End CacheInstances.

(* ================================================================== *)
(** * The Normal distribution                                          *)
(* ================================================================== *)

Section NormalFacts.

Import PyRandom.

Variable array : Type.
Variable dtype : Type.
Variable seed : Type.
Variable isinstance_Zero : array -> bool.
Variable convert_AbstractMatrix : pyobj array -> array.
Variable B_dtype : pyobj array -> dtype.
Variable B_shape0 : pyobj array -> Z.
Variable B_zeros : dtype -> Z -> Z -> array.
Variable B_fill_diag : pyobj array -> Z -> array.
Variable B_sample : seed -> pyobj array -> Z -> array.
Variable B_dense : pyobj array -> array.
Variable py_add : pyobj array -> pyobj array -> pyobj array.
Variable object_add object_mul : pyobj array -> pyobj array -> outcome array.
Variable object_pow : array -> nat -> outcome array.

(** [convert] returns an object that is an [AbstractMatrix] already as
    it is. *)
Hypothesis convert_AbstractMatrix_idem :
  forall x,
    convert_AbstractMatrix (Arr (convert_AbstractMatrix x)) =
    convert_AbstractMatrix x.

Abbreviation var_ := (var array convert_AbstractMatrix).
Abbreviation rvar := (resolved_var array convert_AbstractMatrix).
Abbreviation avar := (after_var array convert_AbstractMatrix).
Abbreviation mean_ :=
  (mean array dtype isinstance_Zero convert_AbstractMatrix B_dtype B_shape0 B_zeros).
Abbreviation rmean :=
  (resolved_mean array dtype convert_AbstractMatrix B_dtype B_shape0 B_zeros).
Abbreviation mean_is_zero_ :=
  (mean_is_zero array dtype isinstance_Zero convert_AbstractMatrix B_dtype
     B_shape0 B_zeros).
Abbreviation rzero := (resolved_mean_is_zero array isinstance_Zero).
Abbreviation sample_ :=
  (sample array dtype seed isinstance_Zero convert_AbstractMatrix B_dtype
     B_shape0 B_zeros B_fill_diag B_sample B_dense py_add).
Abbreviation add_ :=
  (__add__ array dtype isinstance_Zero convert_AbstractMatrix B_dtype B_shape0
     B_zeros py_add object_add).
Abbreviation mul_ :=
  (__mul__ array dtype isinstance_Zero convert_AbstractMatrix B_dtype B_shape0
     B_zeros object_mul object_pow).

Implicit Types (n : Normal array) (x : pyobj array).

Ltac run_normal :=
  unfold sample, mean, mean_is_zero, _resolve_mean, dtype_, dim, var,
    _resolve_var, bind, when, read, ret, raise, attribute, set_var, set_mean,
    set_mean_is_zero in *; simpl in *.

Lemma well_formed_init (m v : pyobj array) (cm cv : unit -> pyobj array) :
  m <> PyNone -> v <> PyNone ->
  well_formed (Normal_mean_var m v) /\
  well_formed (Normal_var v) /\
  well_formed (Normal_constructors cm cv) /\
  well_formed (Normal_construct_var cv).
Proof.
  intros Hm Hv. unfold well_formed; simpl. repeat split; congruence.
Qed.

Lemma var_run n :
  well_formed n -> var_ n = (Returned (rvar n), avar n).
Proof.
  intros [_ Hv]. destruct n as [m cm z v cv]; simpl in *.
  unfold resolved_var, after_var, or_constructed; simpl.
  run_normal.
  destruct v; simpl in *; try reflexivity.
  destruct cv as [c|]; [reflexivity|]. now destruct Hv.
Qed.

Lemma well_formed_after_var n : well_formed n -> well_formed (avar n).
Proof.
  intros [Hm _]. split; simpl; [exact Hm | discriminate].
Qed.

Lemma resolved_var_after_var n : rvar (avar n) = rvar n.
Proof.
  unfold after_var, resolved_var; simpl.
  unfold or_constructed at 1; simpl.
  now rewrite convert_AbstractMatrix_idem.
Qed.

Lemma after_var_twice n : avar (avar n) = avar n.
Proof.
  unfold after_var at 1 3. simpl. now rewrite resolved_var_after_var.
Qed.

Lemma mean_is_zero_run n :
  well_formed n ->
  mean_is_zero_ n =
    (Returned (Some (rzero n)), after_mean_is_zero array isinstance_Zero n).
Proof.
  intros [Hm _]. destruct n as [m cm z v cv]; simpl in *.
  unfold after_mean_is_zero, resolved_mean_is_zero, constructed_mean,
    or_constructed; simpl.
  run_normal.
  destruct m as [|i|a]; simpl in *.
  - destruct cm as [c|]; [|now destruct Hm]. simpl.
    destruct z as [b|]; simpl; rewrite andb_false_r; reflexivity.
  - destruct z as [b|]; simpl; rewrite andb_false_r; reflexivity.
  - destruct z as [b|]; simpl; reflexivity.
Qed.

Lemma constructed_mean_idem n :
  constructed_mean array (after_mean_is_zero array isinstance_Zero n) =
  constructed_mean array n.
Proof.
  unfold after_mean_is_zero. unfold constructed_mean at 1; simpl.
  unfold constructed_mean, or_constructed.
  destruct (_mean n) eqn:Em; simpl; try reflexivity.
  destruct (_construct_mean n) as [c|]; simpl; [|reflexivity].
  now destruct (c tt).
Qed.

Lemma well_formed_after_mean_is_zero n :
  well_formed n -> well_formed (after_mean_is_zero array isinstance_Zero n).
Proof.
  intros [Hm Hv]. split; simpl; [|exact Hv].
  unfold constructed_mean, or_constructed.
  destruct (_mean n); simpl; try discriminate.
  intros _. now apply Hm.
Qed.

Abbreviation zeros_ :=
  (bind array (dtype_ array dtype convert_AbstractMatrix B_dtype)
     (fun t => bind array (dim array convert_AbstractMatrix B_shape0)
        (fun d => set_mean array (Arr (B_zeros t d 1))))).

(** [_resolve_mean] after its first two statements. *)
Lemma resolve_mean_steps (b : bool) n :
  well_formed n ->
  _resolve_mean array dtype isinstance_Zero convert_AbstractMatrix B_dtype
    B_shape0 B_zeros b n =
  when array (is_0 (constructed_mean array n) && b) zeros_
    (after_mean_is_zero array isinstance_Zero n).
Proof.
  intros [Hm _]. destruct n as [m cm z v cv]; simpl in *.
  unfold _resolve_mean, after_mean_is_zero, resolved_mean_is_zero,
    constructed_mean, or_constructed; simpl.
  destruct m as [|i|a]; simpl in *;
    [destruct cm as [c|]; [|now destruct Hm]| |];
    destruct z as [flag|]; reflexivity.
Qed.

Lemma zeros_run n :
  well_formed n ->
  zeros_ n =
  (Returned tt,
   snd (set_mean array (Arr (B_zeros (B_dtype (rvar n)) (B_shape0 (rvar n)) 1))
          (avar n))).
Proof.
  intros Hwf. unfold dtype_, dim. unfold bind, ret.
  rewrite (var_run n Hwf).
  rewrite (var_run _ (well_formed_after_var n Hwf)).
  now rewrite resolved_var_after_var, after_var_twice.
Qed.

Lemma mean_run n :
  well_formed n ->
  mean_ n =
  (Returned (rmean n),
   after_mean array dtype isinstance_Zero convert_AbstractMatrix B_dtype
     B_shape0 B_zeros n).
Proof.
  intros Hwf. unfold mean. unfold bind at 1.
  rewrite (resolve_mean_steps true n Hwf).
  unfold after_mean. unfold resolved_mean.
  destruct (is_0 (constructed_mean array n)) eqn:E0; simpl.
  - now rewrite (zeros_run _ (well_formed_after_mean_is_zero n Hwf)).
  - reflexivity.
Qed.

Lemma resolved_mean_after n :
  rmean (after_mean_is_zero array isinstance_Zero (avar n)) = rmean n.
Proof.
  unfold resolved_mean.
  rewrite constructed_mean_idem.
  change (rvar (after_mean_is_zero array isinstance_Zero (avar n)))
    with (rvar (avar n)).
  rewrite resolved_var_after_var.
  reflexivity.
Qed.

(** C8.  With a noise that is not [None], [sample] hands to [B.sample]
    the sum of [B.fill_diag(noise, dim)] and the variance, so the noise
    is in the covariance the sample is drawn from; the mean that the
    property [mean] returns is added to the drawn sample exactly when
    the property [mean_is_zero] is false; [B.dense] of the result is
    returned.  Without noise the sample is drawn from the variance. *)
Theorem sample_draws_from_noisy_covariance (s : seed) (num : Z) noise n :
  well_formed n ->
  let V := rvar n in
  let covariance :=
    if is_None noise then V else py_add (Arr (B_fill_diag noise (B_shape0 V))) V in
  let drawn := Arr (B_sample s covariance num) in
  fst (mean_is_zero_ n) = Returned (Some (rzero n)) /\
  fst (sample_ s num noise n) =
    Returned (B_dense (if rzero n then drawn else py_add drawn (rmean n))).
Proof.
  intros Hwf V covariance drawn.
  split; [now rewrite (mean_is_zero_run n Hwf)|].
  pose proof (well_formed_after_var n Hwf) as Hwf1.
  unfold sample. unfold bind at 1. rewrite (var_run n Hwf).
  unfold bind at 1.
  assert (Hcov :
    (if negb (is_None noise)
     then bind array (dim array convert_AbstractMatrix B_shape0)
            (fun d => bind array var_
               (fun v2 => ret array (py_add (Arr (B_fill_diag noise d)) v2)))
     else ret array (rvar n)) (avar n) = (Returned covariance, avar n)).
  { unfold covariance, V. destruct (is_None noise); simpl; [reflexivity|].
    unfold dim. unfold bind, ret. rewrite (var_run _ Hwf1).
    rewrite after_var_twice, (var_run _ Hwf1).
    now rewrite after_var_twice, resolved_var_after_var. }
  rewrite Hcov. unfold bind at 1.
  rewrite (mean_is_zero_run _ Hwf1).
  change (rzero (avar n)) with (rzero n).
  unfold bind at 1. fold drawn.
  destruct (rzero n); simpl.
  - reflexivity.
  - unfold bind at 1.
    rewrite (mean_run _ (well_formed_after_mean_is_zero _ Hwf1)).
    now rewrite resolved_mean_after.
Qed.

Lemma well_formed_after_mean n :
  well_formed n ->
  well_formed (after_mean array dtype isinstance_Zero convert_AbstractMatrix
                 B_dtype B_shape0 B_zeros n).
Proof.
  intros Hwf. destruct (well_formed_after_mean_is_zero n Hwf) as [Hm _].
  destruct Hwf as [_ Hv]. split; simpl.
  - unfold resolved_mean. simpl in Hm.
    destruct (is_0 (constructed_mean array n)); [discriminate|exact Hm].
  - destruct (is_0 (constructed_mean array n)); [discriminate|exact Hv].
Qed.

Lemma resolved_var_after_mean n :
  rvar (after_mean array dtype isinstance_Zero convert_AbstractMatrix
          B_dtype B_shape0 B_zeros n) = rvar n.
Proof.
  unfold after_mean. unfold resolved_var at 1; simpl.
  destruct (is_0 (constructed_mean array n)).
  - unfold or_constructed at 1; simpl. unfold resolved_var.
    now rewrite convert_AbstractMatrix_idem.
  - reflexivity.
Qed.

(** [+] and [*] with an object that is not a [Random] on the right,
    step by step. *)
Lemma add_object_run (c : pyobj array) n :
  well_formed n ->
  add_ (OObject c) n =
  match operator_add array object_add (rmean n) c with
  | Returned s =>
      (Returned (Normal_mean_var s (rvar n), OObject c),
       avar (after_mean array dtype isinstance_Zero convert_AbstractMatrix
               B_dtype B_shape0 B_zeros n))
  | Raised e =>
      (Raised e,
       after_mean array dtype isinstance_Zero convert_AbstractMatrix
         B_dtype B_shape0 B_zeros n)
  end.
Proof.
  intros Hwf. unfold __add__. unfold bind at 1. rewrite (mean_run n Hwf).
  unfold bind at 1. unfold eval at 1.
  destruct (operator_add array object_add (rmean n) c) as [s|e];
    [|reflexivity].
  unfold bind, ret. rewrite (var_run _ (well_formed_after_mean n Hwf)).
  now rewrite resolved_var_after_mean.
Qed.

Lemma mul_object_run (c : pyobj array) n :
  well_formed n ->
  fst (mul_ (OObject c) n) =
  match operator_mul array object_mul (rmean n) c with
  | Raised e => Raised e
  | Returned s =>
      match operator_pow array object_pow c 2 with
      | Raised e => Raised e
      | Returned p =>
          match operator_mul array object_mul (rvar n) p with
          | Raised e => Raised e
          | Returned q => Returned (Normal_mean_var s q, OObject c)
          end
      end
  end.
Proof.
  intros Hwf. unfold __mul__. unfold bind at 1. rewrite (mean_run n Hwf).
  unfold bind at 1. unfold eval at 1.
  destruct (operator_mul array object_mul (rmean n) c) as [s|e];
    [|reflexivity].
  unfold bind at 1. rewrite (var_run _ (well_formed_after_mean n Hwf)).
  rewrite resolved_var_after_mean.
  unfold bind at 1. unfold eval at 1.
  destruct (operator_pow array object_pow c 2) as [p|e]; [|reflexivity].
  unfold bind at 1. unfold eval at 1.
  destruct (operator_mul array object_mul (rvar n) p) as [q|e]; reflexivity.
Qed.

(** C9.  With an instance of another subclass of [Random] on the right,
    [+] and [*] raise a [NotImplementedError] whose message has the class
    name of the operand in it, and leave the [Normal] as it is.  With
    any other object [c] on the right, [+] returns the [Normal] of
    [mean + c] and [var] when [mean + c] returns, and [*] the [Normal]
    of [mean * c] and [var * c ** 2] when [mean * c], [c ** 2] and
    [var * c ** 2] return; what one of them raises leaves the method
    instead.  So with an [int] as mean, the sum with an [int] is
    returned, and the sum and the product with [None] raise a
    [TypeError]. *)
Theorem arithmetic_rejects_other_randoms n (cls : string) (c : pyobj array) :
  (add_ (ORandom cls) n = (Raised (NotImplementedError (add_message cls)), n) /\
   names (add_message cls) cls) /\
  (mul_ (ORandom cls) n = (Raised (NotImplementedError (mul_message cls)), n) /\
   names (mul_message cls) cls) /\
  (well_formed n ->
   (forall s,
      operator_add array object_add (rmean n) c = Returned s ->
      fst (add_ (OObject c) n) =
        Returned (Normal_mean_var s (rvar n), OObject c)) /\
   (forall e,
      operator_add array object_add (rmean n) c = Raised e ->
      fst (add_ (OObject c) n) = Raised e) /\
   (forall s p q,
      operator_mul array object_mul (rmean n) c = Returned s ->
      operator_pow array object_pow c 2 = Returned p ->
      operator_mul array object_mul (rvar n) p = Returned q ->
      fst (mul_ (OObject c) n) = Returned (Normal_mean_var s q, OObject c)) /\
   (forall e,
      operator_mul array object_mul (rmean n) c = Raised e \/
      (exists s, operator_mul array object_mul (rmean n) c = Returned s) /\
      (operator_pow array object_pow c 2 = Raised e \/
       exists p,
         operator_pow array object_pow c 2 = Returned p /\
         operator_mul array object_mul (rvar n) p = Raised e) ->
      fst (mul_ (OObject c) n) = Raised e) /\
   (forall z,
      rmean n = PyInt z ->
      (forall k,
         fst (add_ (OObject (PyInt k)) n) =
           Returned (Normal_mean_var (PyInt (z + k)) (rvar n),
                     OObject (PyInt k))) /\
      fst (add_ (OObject PyNone) n) = Raised TypeError /\
      fst (mul_ (OObject PyNone) n) = Raised TypeError)).
Proof.
  split; [|split].
  - split; [reflexivity|].
    exists ("Cannot add a normal and a " ++ dquote)%string, (dquote ++ ".")%string.
    reflexivity.
  - split; [reflexivity|].
    exists ("Cannot multiply a normal and a f" ++ dquote)%string,
      (dquote ++ ".")%string.
    reflexivity.
  - intros Hwf. repeat split.
    + intros s Hs. now rewrite (add_object_run c n Hwf), Hs.
    + intros e He. now rewrite (add_object_run c n Hwf), He.
    + intros s p q Hs Hp Hq. now rewrite (mul_object_run c n Hwf), Hs, Hp, Hq.
    + intros e [He | [[s Hs] [He | [p [Hp He]]]]];
        rewrite (mul_object_run c n Hwf).
      * now rewrite He.
      * now rewrite Hs, He.
      * now rewrite Hs, Hp, He.
    + intros k. rewrite (add_object_run (PyInt k) n Hwf), H. reflexivity.
    + rewrite (add_object_run PyNone n Hwf), H. reflexivity.
    + rewrite (mul_object_run PyNone n Hwf), H. reflexivity.
Qed.

End NormalFacts.

Section NormalInstances.

Import PyRandom RandomExample.

Lemma convert_idem (x : pyobj array) : convert (Arr (convert x)) = convert x.
Proof. reflexivity. Qed.

Lemma well_formed_normal57 : well_formed normal57.
Proof. split; simpl; discriminate. Qed.

Lemma well_formed_normal0 : well_formed normal0.
Proof. split; simpl; discriminate. Qed.

Lemma sample_draws_from_noisy_covariance_witness :
  fst (sample array unit Z zero_class convert (fun _ => tt) shape0 zeros
         fill_diag draw convert add 3 1 (PyInt 1) normal57)
  = Returned [[14]; [16]] /\
  fst (sample array unit Z zero_class convert (fun _ => tt) shape0 zeros
         fill_diag draw convert add 3 1 (PyInt 1) normal0)
  = Returned [[9]; [9]].
Proof.
  split.
  - apply (sample_draws_from_noisy_covariance array unit Z zero_class convert
             (fun _ => tt) shape0 zeros fill_diag draw convert add convert_idem
             3 1 (PyInt 1) normal57 well_formed_normal57).
  - apply (sample_draws_from_noisy_covariance array unit Z zero_class convert
             (fun _ => tt) shape0 zeros fill_diag draw convert add convert_idem
             3 1 (PyInt 1) normal0 well_formed_normal0).
Defined.

Lemma well_formed_normal5 : well_formed normal5.
Proof. split; simpl; discriminate. Qed.

Lemma arithmetic_rejects_other_randoms_witness :
  fst (__add__ array unit zero_class convert (fun _ => tt) shape0 zeros add
         object_add (OObject (Arr [[1]; [1]])) normal57)
  = Returned (Normal_mean_var (Arr [[6]; [8]]) two_by_two,
              OObject (Arr [[1]; [1]])) /\
  fst (__mul__ array unit zero_class convert (fun _ => tt) shape0 zeros
         object_mul object_pow (OObject (PyInt 3)) normal57)
  = Returned (Normal_mean_var (Arr [[15]; [21]]) (Arr [[18; 0]; [0; 18]]),
              OObject (PyInt 3)) /\
  fst (__add__ array unit zero_class convert (fun _ => tt) shape0 zeros add
         object_add (OObject PyNone) normal57)
  = Raised TypeError /\
  fst (__mul__ array unit zero_class convert (fun _ => tt) shape0 zeros
         object_mul object_pow (OObject PyNone) normal5)
  = Raised TypeError /\
  fst (__add__ array unit zero_class convert (fun _ => tt) shape0 zeros add
         object_add (OObject (PyInt 3)) normal5)
  = Returned (Normal_mean_var (PyInt 8) two_by_two, OObject (PyInt 3)).
Proof.
  destruct (arithmetic_rejects_other_randoms array unit zero_class convert
              (fun _ => tt) shape0 zeros add object_add object_mul object_pow
              convert_idem normal57 "GP" (Arr [[1]; [1]]))
    as (_ & _ & Hobject).
  destruct (Hobject well_formed_normal57) as (Hadd & _).
  destruct (arithmetic_rejects_other_randoms array unit zero_class convert
              (fun _ => tt) shape0 zeros add object_add object_mul object_pow
              convert_idem normal57 "GP" (PyInt 3))
    as (_ & _ & Hobject3).
  destruct (Hobject3 well_formed_normal57) as (_ & _ & Hmul & _).
  destruct (arithmetic_rejects_other_randoms array unit zero_class convert
              (fun _ => tt) shape0 zeros add object_add object_mul object_pow
              convert_idem normal57 "GP" PyNone)
    as (_ & _ & HNone).
  destruct (HNone well_formed_normal57) as (_ & Hraise & _).
  destruct (arithmetic_rejects_other_randoms array unit zero_class convert
              (fun _ => tt) shape0 zeros add object_add object_mul object_pow
              convert_idem normal5 "GP" PyNone)
    as (_ & _ & Hint).
  destruct (Hint well_formed_normal5) as (_ & _ & _ & _ & HNone5).
  split; [|split; [|split; [|split]]].
  - apply (Hadd (Arr [[6]; [8]])). reflexivity.
  - apply (Hmul (Arr [[15]; [21]]) (PyInt 9) (Arr [[18; 0]; [0; 18]]));
      reflexivity.
  - apply (Hraise TypeError). reflexivity.
  - apply (HNone5 5). reflexivity.
  - apply (HNone5 5). reflexivity.
Defined.

(** C9, as the claim has it, fails: [None] is an operand that is not a
    [Random], and with it on the right of a [Normal] whose mean is the
    [int] 5 neither [+] nor [*] returns a [Normal]; [5 + None] and
    [5 * None] raise Python's [TypeError], and no method of the backend
    is reached. *)
Lemma plain_operand_raises :
  fst (__add__ array unit zero_class convert (fun _ => tt) shape0 zeros add
         object_add (OObject PyNone) normal5) = Raised TypeError /\
  fst (__mul__ array unit zero_class convert (fun _ => tt) shape0 zeros
         object_mul object_pow (OObject PyNone) normal5) = Raised TypeError /\
  fst (__add__ array unit zero_class convert (fun _ => tt) shape0 zeros add
         (fun _ _ => Returned []) (OObject PyNone) normal5) = Raised TypeError /\
  fst (__mul__ array unit zero_class convert (fun _ => tt) shape0 zeros
         (fun _ _ => Returned []) (fun _ _ => Returned [])
         (OObject PyNone) normal5) = Raised TypeError.
Proof.
  repeat split; vm_compute; reflexivity.
Qed.

End NormalInstances.

(* ================================================================== *)
(** * Arithmetic of the structured operators                           *)
(* ================================================================== *)

Section OperatorArithmetic.

Import SPD.

Variable R : Type.
Variable zero : R.
Variables add sub mul div : R -> R -> R.
Variables sqrt log : R -> R.
Variable solve : matrix R -> matrix R -> matrix R.
Variable logdet_dense : matrix R -> R.

Abbreviation mat_ := (mat R zero add mul).
Abbreviation diag_ := (diag R zero add mul).
Abbreviation diag_matrix_ := (diag_matrix R zero).

Implicit Types (A B : operator R) (d : list R) (op : R -> R -> R).

Lemma map2_length {X Y Z' : Type} (f : X -> Y -> Z') (xs : list X) (ys : list Y) :
  List.length xs = List.length ys ->
  List.length (map2 f xs ys) = List.length xs.
Proof.
  revert ys; induction xs as [|x xs IH]; intros [|y ys] H; simpl in *;
    try discriminate; [reflexivity|].
  f_equal. apply IH. now injection H.
Qed.

Lemma map2_map {X Y Z' W : Type} (f : Y -> Z' -> W) (g : X -> Y) (h : X -> Z')
    (l : list X) :
  map2 f (map g l) (map h l) = map (fun x => f (g x) (h x)) l.
Proof.
  induction l as [|x l IH]; simpl; [reflexivity|]. now rewrite IH.
Qed.

Lemma nth_map2 op (d1 d2 : list R) (i : nat) :
  List.length d1 = List.length d2 ->
  (i < List.length d1)%nat ->
  nth i (map2 op d1 d2) zero = op (nth i d1 zero) (nth i d2 zero).
Proof.
  revert d2 i; induction d1 as [|x d1 IH]; intros [|y d2] i Hlen Hi;
    simpl in *; try discriminate; try lia.
  destruct i as [|i]; [reflexivity|].
  apply IH; [now injection Hlen | lia].
Qed.

Lemma map2_repeat op (a b : R) (n : nat) :
  map2 op (repeat a n) (repeat b n) = repeat (op a b) n.
Proof.
  induction n as [|n IH]; simpl; [reflexivity|]. now rewrite IH.
Qed.

(** The dense form of the entrywise combination of two diagonals. *)
Lemma diag_matrix_map2 op (d1 d2 : list R) :
  op zero zero = zero ->
  List.length d1 = List.length d2 ->
  diag_matrix_ (map2 op d1 d2) =
  map2 (map2 op) (diag_matrix_ d1) (diag_matrix_ d2).
Proof.
  intros Hzero Hlen. unfold diag_matrix.
  rewrite (map2_length op d1 d2 Hlen), <- Hlen.
  rewrite map2_map. apply map_ext_in. intros i Hi.
  rewrite map2_map. apply map_ext_in. intros j _.
  apply in_seq in Hi.
  destruct (Nat.eqb i j); [|now rewrite Hzero].
  apply nth_map2; [exact Hlen | lia].
Qed.

Lemma combine_with_mat op A B :
  op zero zero = zero ->
  shape A = shape B ->
  mat_ (combine_with R zero add mul op A B) = map2 (map2 op) (mat_ A) (mat_ B).
Proof.
  intros Hzero Hshape.
  destruct A as [m1|d1|a n|f1], B as [m2|d2|b n'|f2]; simpl in *;
    try reflexivity.
  - apply diag_matrix_map2; [exact Hzero | congruence].
  - apply diag_matrix_map2; [exact Hzero|].
    rewrite repeat_length. congruence.
  - apply diag_matrix_map2; [exact Hzero|].
    rewrite repeat_length. congruence.
  - assert (n' = n) as -> by congruence.
    rewrite <- map2_repeat. apply diag_matrix_map2; [exact Hzero|].
    now rewrite !repeat_length.
Qed.

(** C3.  For two operators of equal shape, of any of the four
    structures, the dense form of the sum is the entrywise sum of the
    dense forms and the dense form of the product is their entrywise
    product; of the arithmetic on the entries only [0 + 0 = 0] and
    [0 * 0 = 0] are used. *)
Theorem sum_and_product_materialise A B :
  add zero zero = zero ->
  mul zero zero = zero ->
  shape A = shape B ->
  mat_ (op_add R zero add mul A B) = mat_add R add (mat_ A) (mat_ B) /\
  mat_ (op_mul R zero add mul A B) = mat_mul R mul (mat_ A) (mat_ B).
Proof.
  intros Hadd Hmul Hshape. split.
  - now apply combine_with_mat.
  - now apply combine_with_mat.
Qed.

(** C4.  The structure of a sum and of a product is the entry of the
    closure table, which is symmetric; in particular two diagonal
    operators give a diagonal one and a diagonal with a dense operator
    gives a dense one, in either order and for both operations; a
    product with a plain scalar has the structure of the operator; a
    sum with a plain scalar is dense. *)
Theorem closure_table_holds :
  (forall A B,
      structure_of (op_add R zero add mul A B) =
        closure_table (structure_of A) (structure_of B) /\
      structure_of (op_mul R zero add mul A B) =
        closure_table (structure_of A) (structure_of B)) /\
  (forall a b, closure_table a b = closure_table b a) /\
  (forall d1 d2,
      structure_of (op_add R zero add mul (Diagonal d1) (Diagonal d2))
      = SDiagonal /\
      structure_of (op_mul R zero add mul (Diagonal d1) (Diagonal d2))
      = SDiagonal) /\
  (forall d m,
      structure_of (op_add R zero add mul (Diagonal d) (Dense m)) = SDense /\
      structure_of (op_add R zero add mul (Dense m) (Diagonal d)) = SDense /\
      structure_of (op_mul R zero add mul (Diagonal d) (Dense m)) = SDense /\
      structure_of (op_mul R zero add mul (Dense m) (Diagonal d)) = SDense) /\
  (forall A c,
      structure_of (mul_scalar R mul sqrt A c) = structure_of A /\
      structure_of (scalar_mul R mul sqrt c A) = structure_of A) /\
  (forall A c,
      structure_of (add_scalar R zero add mul A c) = SDense /\
      structure_of (scalar_add R zero add mul c A) = SDense).
Proof.
  repeat split; try reflexivity.
  - destruct A, B; reflexivity.
  - destruct A, B; reflexivity.
  - destruct a, b; reflexivity.
  - destruct A; reflexivity.
  - destruct A; reflexivity.
Qed.

(** C5.  On a low-rank operator every operation that needs the inverse
    raises the singular operator error, a [RuntimeError], whatever the
    factor and the arguments are, so in particular when the rank of the
    factor is below the size; none of them returns a value. *)
Theorem low_rank_is_singular (f : matrix R) (a b B : matrix R) :
  let A := LowRank f in
  mah_dist2 R zero add sub mul div solve A a None
    = Raised (RuntimeError "singular operator") /\
  mah_dist2 R zero add sub mul div solve A a (Some b)
    = Raised (RuntimeError "singular operator") /\
  quadratic_form R zero add mul div solve A a None
    = Raised (RuntimeError "singular operator") /\
  quadratic_form R zero add mul div solve A a (Some b)
    = Raised (RuntimeError "singular operator") /\
  quadratic_form_diag R zero add mul div solve A a None
    = Raised (RuntimeError "singular operator") /\
  quadratic_form_diag R zero add mul div solve A a (Some b)
    = Raised (RuntimeError "singular operator") /\
  inv_prod R div solve A B = Raised (RuntimeError "singular operator") /\
  logdet R zero add log logdet_dense A
    = Raised (RuntimeError "singular operator").
Proof.
  repeat split.
Qed.

End OperatorArithmetic.

Lemma sum_and_product_materialise_witness :
  SPD.mat Z 0 Z.add Z.mul
    (SPD.op_add Z 0 Z.add Z.mul SPDExample.diag123 SPDExample.five_identity)
  = [[6; 0; 0]; [0; 7; 0]; [0; 0; 8]] /\
  SPD.mat Z 0 Z.add Z.mul
    (SPD.op_mul Z 0 Z.add Z.mul SPDExample.diag123 SPDExample.five_identity)
  = [[5; 0; 0]; [0; 10; 0]; [0; 0; 15]].
Proof.
  apply (sum_and_product_materialise Z 0 Z.add Z.mul
           SPDExample.diag123 SPDExample.five_identity);
    reflexivity.
Defined.

(** The operators of the tests: a three by two factor has rank two,
    below the size three, and its log-determinant is refused; the sum of
    a diagonal and a dense operator is dense, and five times a diagonal
    operator is diagonal. *)
Example low_rank_three_by_two :
  (SPD.rank SPDExample.low_rank32
   < fst (SPD.shape (SPD.LowRank SPDExample.low_rank32)))%nat /\
  SPD.logdet Z 0 Z.add (fun x => x) (fun _ => 0)
    (SPD.LowRank SPDExample.low_rank32)
  = SPD.Raised (SPD.RuntimeError "singular operator") /\
  SPD.structure_of
    (SPD.op_add Z 0 Z.add Z.mul SPDExample.diag123 SPDExample.dense3)
  = SPD.SDense /\
  SPD.scalar_mul Z Z.mul (fun x => x) 5 SPDExample.diag123
  = SPD.Diagonal [5; 10; 15].
Proof.
  split; [unfold SPD.rank, SPD.shape; simpl; lia|]. repeat split.
Qed.

(* ================================================================== *)
(** * The sum of a process with itself                                 *)
(* ================================================================== *)

Section SelfSum.

Import Graph.

Variable mat : Type.
Variable vec : Type.
Variable mzero mone : mat.
Variable madd msub mmul : mat -> mat -> mat.
Variable mtrans : mat -> mat.
Variable minv : mat -> option mat.
Variable vzero : vec.
Variable vadd vsub : vec -> vec -> vec.
Variable mul_mv : mat -> vec -> vec.

Hypothesis L :
  laws mat vec mzero mone madd mmul mtrans minv vzero vadd vsub mul_mv.

Abbreviation mscale_ := (mscale mat mzero madd).
Abbreviation vscale_ := (vscale vec vzero vadd).
Abbreviation sum_ := (sum mat vec madd mtrans vadd).
Abbreviation self_sum_ := (self_sum mat vec madd mtrans vadd).
Abbreviation condition_ :=
  (condition mat vec msub mmul mtrans minv vadd vsub mul_mv).

Implicit Types (g : graph mat vec) (K a : mat) (y : vec) (n k p s : nat).

Lemma mscale_succ k K : mscale_ (S k) K = madd K (mscale_ k K).
Proof. reflexivity. Qed.

Lemma mscale_one K : mscale_ 1 K = K.
Proof. rewrite mscale_succ. apply (madd_zero _ _ _ _ _ _ _ _ _ _ _ _ L). Qed.

Lemma mscale_plus k1 k2 K :
  mscale_ (k1 + k2) K = madd (mscale_ k1 K) (mscale_ k2 K).
Proof.
  induction k1 as [|k1 IH].
  - change (mscale_ 0 K) with mzero.
    rewrite (madd_comm _ _ _ _ _ _ _ _ _ _ _ _ L).
    now rewrite (madd_zero _ _ _ _ _ _ _ _ _ _ _ _ L).
  - rewrite Nat.add_succ_l, !mscale_succ, IH.
    apply (madd_assoc _ _ _ _ _ _ _ _ _ _ _ _ L).
Qed.

Lemma mtrans_mscale k K : mtrans K = K -> mtrans (mscale_ k K) = mscale_ k K.
Proof.
  intros Hsym. induction k as [|k IH].
  - apply (mtrans_zero _ _ _ _ _ _ _ _ _ _ _ _ L).
  - rewrite mscale_succ, (mtrans_add _ _ _ _ _ _ _ _ _ _ _ _ L), Hsym.
    now rewrite IH.
Qed.

Lemma mmul_mscale k K a : mmul (mscale_ k K) a = mscale_ k (mmul K a).
Proof.
  induction k as [|k IH].
  - apply (mmul_zero _ _ _ _ _ _ _ _ _ _ _ _ L).
  - rewrite !mscale_succ, (mmul_add _ _ _ _ _ _ _ _ _ _ _ _ L).
    now rewrite IH.
Qed.

Lemma mul_mv_mscale_one k y : mul_mv (mscale_ k mone) y = vscale_ k y.
Proof.
  induction k as [|k IH].
  - apply (mul_mv_zero _ _ _ _ _ _ _ _ _ _ _ _ L).
  - rewrite mscale_succ, (mul_mv_add _ _ _ _ _ _ _ _ _ _ _ _ L).
    rewrite (mul_mv_one _ _ _ _ _ _ _ _ _ _ _ _ L), IH.
    reflexivity.
Qed.

Lemma self_sum_step n g p :
  self_sum_ (S (S n)) g p =
  let (g', s) := self_sum_ (S n) g p in sum_ g' s p.
Proof. reflexivity. Qed.

(** The entries of the tables that concern the sum of [n + 1] copies of
    [p] and [p] itself. *)
Lemma self_sum_entries n g p K :
  (p < size g)%nat ->
  means g p = vzero ->
  kernels g p p = K ->
  mtrans K = K ->
  forall g' s, self_sum_ (S n) g p = (g', s) ->
    (p < size g')%nat /\
    means g' p = vzero /\
    kernels g' p p = K /\
    means g' s = vzero /\
    kernels g' s s = mscale_ (S n * S n) K /\
    kernels g' s p = mscale_ (S n) K /\
    kernels g' p s = mscale_ (S n) K.
Proof.
  intros Hp Hmean HK Hsym.
  induction n as [|n IH]; intros g' s Hrun.
  - simpl in Hrun. injection Hrun as <- <-.
    change (1 * 1)%nat with 1%nat. rewrite mscale_one. tauto.
  - rewrite self_sum_step in Hrun.
    destruct (self_sum_ (S n) g p) as [g1 s1] eqn:Hprev.
    destruct (IH g1 s1 eq_refl) as (Hp1 & Hm1 & HK1 & Hms1 & Hss & Hsp & Hps).
    unfold sum in Hrun. injection Hrun as <- <-. simpl size.
    assert (Hne : Nat.eqb p (size g1) = false) by (apply Nat.eqb_neq; lia).
    cbn [means kernels]. rewrite Nat.eqb_refl, Hne. cbn [andb].
    rewrite Hm1, Hms1, HK1, Hss, Hsp, Hps.
    assert (Hnext : madd (mscale_ (S n) K) K = mscale_ (S (S n)) K).
    { rewrite <- (mscale_one K) at 2. rewrite <- mscale_plus.
      f_equal. lia. }
    rewrite Hnext.
    repeat split.
    + lia.
    + apply (vadd_zero_left _ _ _ _ _ _ _ _ _ _ _ _ L).
    + rewrite <- mscale_plus, !mtrans_mscale by exact Hsym.
      rewrite <- mscale_plus. f_equal. lia.
    + now apply mtrans_mscale.
Qed.

(** C2.  In a graph with a process [p] of zero mean whose kernel matrix
    [K] at the inputs is symmetric, let [s] be the sum of [n] copies of
    [p], for [n] at least one.  The variance of [s] at the inputs is
    [n * n] times [K] and its mean is zero; and when [K] has an
    inverse, conditioning on the observation [y] of [p] succeeds and
    gives [s] the mean [n] times [y]. *)
Theorem self_sum_scales n g p y :
  (1 <= n)%nat ->
  (p < size g)%nat ->
  means g p = vzero ->
  mtrans (kernels g p p) = kernels g p p ->
  forall g' s, self_sum mat vec madd mtrans vadd n g p = (g', s) ->
    kernels g' s s = mscale mat mzero madd (n * n) (kernels g p p) /\
    kernels g' p p = kernels g p p /\
    means g' s = vzero /\
    forall ki, minv (kernels g p p) = Some ki ->
      exists posterior,
        condition_ g' p y = Some posterior /\
        means posterior s = vscale vec vzero vadd n y.
Proof.
  intros Hn Hp Hmean Hsym g' s Hrun.
  destruct n as [|n]; [lia|].
  destruct (self_sum_entries n g p (kernels g p p) Hp Hmean eq_refl Hsym
              g' s Hrun) as (_ & Hm & HK & Hms & Hss & Hsp & _).
  repeat split; try assumption.
  intros ki Hinv. unfold condition. rewrite HK, Hinv.
  eexists. split; [reflexivity|]. cbn [means].
  rewrite Hms, Hm, Hsp.
  rewrite (vsub_zero _ _ _ _ _ _ _ _ _ _ _ _ L).
  rewrite (vadd_zero_left _ _ _ _ _ _ _ _ _ _ _ _ L).
  rewrite mmul_mscale, (minv_right _ _ _ _ _ _ _ _ _ _ _ _ L _ _ Hinv).
  apply mul_mv_mscale_one.
Qed.

End SelfSum.

Lemma integer_laws :
  Graph.laws Z Z 0 1 Z.add Z.mul (fun k => k) GraphExample.inverse
    0 Z.add Z.sub Z.mul.
Proof.
  constructor; intros; try lia.
  unfold GraphExample.inverse in H.
  destruct (a =? 1) eqn:E1; [injection H as <-; lia|].
  destruct (a =? -1) eqn:E2; [injection H as <-; lia|discriminate].
Qed.

Lemma self_sum_scales_witness :
  Graph.kernels (fst GraphExample.five_copies) (snd GraphExample.five_copies)
    (snd GraphExample.five_copies) = 25 /\
  Graph.kernels (fst GraphExample.five_copies) 0%nat 0%nat = 1 /\
  Graph.means (fst GraphExample.five_copies) (snd GraphExample.five_copies) = 0 /\
  forall ki, GraphExample.inverse 1 = Some ki ->
    exists posterior,
      Graph.condition Z Z Z.sub Z.mul (fun k => k) GraphExample.inverse
        Z.add Z.sub Z.mul (fst GraphExample.five_copies) 0%nat 7
      = Some posterior /\
      Graph.means posterior (snd GraphExample.five_copies) = 35.
Proof.
  apply (self_sum_scales Z Z 0 1 Z.add Z.sub Z.mul (fun k => k)
           GraphExample.inverse 0 Z.add Z.sub Z.mul integer_laws
           5%nat GraphExample.one_gp 0%nat 7).
  - lia.
  - simpl. lia.
  - reflexivity.
  - reflexivity.
  - reflexivity.
Defined.

(* ================================================================== *)
(** * More on the dictionary and on the decorator                      *)
(* ================================================================== *)

Lemma key_eqb_sym (a b : key) : key_eqb a b = key_eqb b a.
Proof.
  revert b. induction a as [x|s|x|ks IH]; intros [y|t|y|ls];
    try reflexivity;
    try (cbn [key_eqb];
         first [apply Z.eqb_sym | apply String.eqb_sym | now destruct x, y]).
  rewrite !key_eqb_tuple. revert ls.
  induction IH as [|k Hk ks _ IHks]; intros [|l ls]; simpl;
    try reflexivity.
  now rewrite Hk, IHks.
Qed.

Lemma key_eqb_trans (a b c : key) :
  key_eqb a b = true -> key_eqb b c = true -> key_eqb a c = true.
Proof.
  revert b c. induction a as [x|s|x|ks IH]; intros [y|t|y|ls] [z|u|z|ms];
    cbn [key_eqb]; try discriminate;
    try (intros H1 H2;
         repeat match goal with b : bool |- _ => destruct b end;
         cbn [Z.b2z Bool.eqb] in *;
         repeat match goal with
                | H : (_ =? _)%Z = true |- _ => apply Z.eqb_eq in H
                | H : String.eqb _ _ = true |- _ => apply String.eqb_eq in H
                end;
         first [ apply Z.eqb_eq; lia
               | apply String.eqb_eq; congruence
               | reflexivity
               | discriminate
               | exfalso; lia ]).
  change (key_eqb (KTuple ks) (KTuple ls) = true ->
          key_eqb (KTuple ls) (KTuple ms) = true ->
          key_eqb (KTuple ks) (KTuple ms) = true).
  rewrite !key_eqb_tuple. revert ls ms.
  induction IH as [|k Hk ks _ IHks]; intros [|l ls] [|m ms]; simpl;
    try discriminate; try reflexivity.
  rewrite !andb_true_iff. intros [H1 H2] [H3 H4]. split.
  - now apply (Hk l m).
  - now apply (IHks ls ms).
Qed.

(** Keys that are equal for Python find the same entries. *)
Lemma key_eqb_congr (k0 k k' : key) :
  key_eqb k k' = true -> key_eqb k0 k = key_eqb k0 k'.
Proof.
  intros H. destruct (key_eqb k0 k) eqn:E1, (key_eqb k0 k') eqn:E2;
    try reflexivity.
  - now rewrite (key_eqb_trans k0 k k' E1 H) in E2.
  - rewrite key_eqb_sym in H.
    now rewrite (key_eqb_trans k0 k' k E2 H) in E1.
Qed.

Lemma dict_get_eqb {A : Type} (k k' : key) (d : dict A) :
  key_eqb k k' = true -> dict_get k d = dict_get k' d.
Proof.
  intros H. induction d as [|[k0 v0] d IH]; simpl; [reflexivity|].
  now rewrite (key_eqb_congr k0 k k' H), IH.
Qed.

Lemma dict_get_set_other {A : Type} (k k' : key) (v : A) (d : dict A) :
  key_eqb k k' = false -> dict_get k' (dict_set k v d) = dict_get k' d.
Proof.
  intros H. induction d as [|[k0 v0] d IH]; simpl.
  - now rewrite H.
  - destruct (key_eqb k0 k) eqn:E; simpl.
    + destruct (key_eqb k0 k') eqn:E'; [|reflexivity].
      rewrite key_eqb_sym in E.
      now rewrite (key_eqb_trans k k0 k' E E') in H.
    + now rewrite IH.
Qed.

Section CacheEntries.

Import PyCache.

Variable tensor : Type.
Variable transpose : tensor -> tensor.

Abbreviation cached := (cache tensor transpose).
Abbreviation computation := (value -> list value -> M tensor tensor).

Implicit Types (f g : computation) (self : value) (inputs : list value)
  (w : world tensor) (k : value) (out : tensor).

Lemma lookup_eqb k k' w :
  collide k k' = true -> lookup k w = lookup k' w.
Proof. intros H. unfold lookup. now apply dict_get_eqb. Qed.

Lemma lookup_setitem_other k k' out w :
  collide k k' = false ->
  lookup k' (snd (__setitem__ tensor k out w)) = lookup k' w.
Proof. intros H. unfold lookup; simpl. now apply dict_get_set_other. Qed.

(** [cache[k] = out] followed by [cache[k]] gives [out]; on any key
    that does not collide with [k] the lookups are as before the
    assignment; a second assignment to [k] replaces the first; and
    [cache[k]] on a key that is not stored raises [KeyError] and leaves
    the cache as it is. *)
Theorem setitem_then_getitem k out w :
  __getitem__ tensor k (snd (__setitem__ tensor k out w)) =
    (Returned out, snd (__setitem__ tensor k out w)) /\
  (forall k', collide k k' = false ->
     __getitem__ tensor k' (snd (__setitem__ tensor k out w)) =
     (fst (__getitem__ tensor k' w), snd (__setitem__ tensor k out w))) /\
  (forall out',
     lookup k (snd (__setitem__ tensor k out'
                      (snd (__setitem__ tensor k out w)))) = Some out') /\
  (lookup k w = None -> __getitem__ tensor k w = (Raised KeyError, w)).
Proof.
  repeat split.
  - unfold __getitem__, __setitem__; simpl. now rewrite dict_get_set_same.
  - intros k' H. unfold __getitem__.
    change (dict_get (_resolve k')
              (_cache_call (the_cache (snd (__setitem__ tensor k out w)))))
      with (lookup k' (snd (__setitem__ tensor k out w))).
    rewrite (lookup_setitem_other k k' out w H). unfold lookup.
    now destruct (dict_get (_resolve k') (_cache_call (the_cache w))).
  - intros out'. unfold lookup; simpl. apply dict_get_set_same.
  - intros H. unfold __getitem__, lookup in *. now rewrite H.
Qed.

(** Keys that collide share their entry: [cache[k']] is [cache[k]];
    a list collides with the tuple of the same elements, a [bool] with
    the [int] of its value and an [int] with the object whose [id] it
    is; so a call whose owner and inputs collide with those of a stored
    entry is a hit with the output of that entry. *)
Theorem colliding_keys_share_entries :
  (forall k k' w, collide k k' = true ->
     __getitem__ tensor k' w = __getitem__ tensor k w) /\
  (forall xs, collide (VList xs) (VTuple xs) = true) /\
  (forall b, collide (VBool b) (VInt (Z.b2z b)) = true) /\
  (forall addr cls payload, collide (VInt addr) (VObj addr cls payload) = true) /\
  (forall f self inputs self' inputs' w out,
     collide (forward_key self inputs) (forward_key self' inputs') = true ->
     lookup (forward_key self inputs) w = Some out ->
     cached f self' inputs' w = (Returned out, logged (LogHit (type_name self')) w)).
Proof.
  split; [|split; [|split; [|split]]].
  - intros k k' w H. unfold __getitem__.
    fold (lookup k' w). fold (lookup k w).
    now rewrite (lookup_eqb k k' w H).
  - intros xs. apply key_eqb_refl.
  - intros [|]; reflexivity.
  - intros addr cls payload. unfold collide; simpl. apply Z.eqb_refl.
  - intros f self inputs self' inputs' w out H Hstored.
    apply cache_hit. now rewrite <- (lookup_eqb _ _ w H).
Qed.

(** A computation that raises on a miss: the exception leaves the call
    as it is, [KeyError] included; and when the computation has left the
    cache alone, nothing is stored, so the next call misses again, and
    [depth] stays one above its value before the call. *)
Theorem raising_computation_stores_nothing f self inputs w e w1 :
  lookup (forward_key self inputs) w = None ->
  lookup (reversed_key self inputs) w = None ->
  f self inputs (entered self w) = (Raised e, w1) ->
  cached f self inputs w = (Raised e, w1) /\
  (the_cache w1 = the_cache (entered self w) ->
   depth (the_cache w1) = depth (the_cache w) + 1 /\
   lookup (forward_key self inputs) w1 = None /\
   lookup (reversed_key self inputs) w1 = None).
Proof.
  intros Hfwd Hrev Hrun. split.
  - now apply cache_miss_raised.
  - intros Hsame. unfold lookup. rewrite Hsame. simpl. now repeat split.
Qed.

(** After a miss on [(self, inputs)] that stored [out], the call with
    the inputs reversed is answered without any computation: with the
    transpose of [out] when the two keys differ and the computation has
    not stored the reversed key itself, and with [out] when the two keys
    collide. *)
Theorem reversed_call_after_miss f g self inputs w out w1 :
  lookup (forward_key self inputs) w = None ->
  lookup (reversed_key self inputs) w = None ->
  f self inputs (entered self w) = (Returned out, w1) ->
  let w2 := snd (cached f self inputs w) in
  (collide (forward_key self inputs) (reversed_key self inputs) = false ->
   lookup (reversed_key self inputs) w1 = None ->
   cached g self (rev inputs) w2 =
     (Returned (transpose out), logged (LogReversedHit (type_name self)) w2)) /\
  (collide (forward_key self inputs) (reversed_key self inputs) = true ->
   cached g self (rev inputs) w2 =
     (Returned out, logged (LogHit (type_name self)) w2)).
Proof.
  intros Hfwd Hrev Hrun w2. subst w2.
  rewrite (cache_miss_returned _ _ f self inputs w out w1 Hfwd Hrev Hrun).
  cbn [snd].
  assert (Hstored : lookup (forward_key self inputs)
                      (left_with self inputs out w1) = Some out).
  { unfold lookup, left_with; simpl. apply dict_get_set_same. }
  split.
  - intros Hdiff Hnone. apply cache_reversed_hit.
    + change (forward_key self (rev inputs)) with (reversed_key self inputs).
      unfold lookup, left_with; simpl.
      rewrite dict_get_set_other by exact Hdiff. exact Hnone.
    + unfold reversed_key. rewrite rev_involutive. exact Hstored.
  - intros Hsame. apply cache_hit.
    change (forward_key self (rev inputs)) with (reversed_key self inputs).
    now rewrite <- (lookup_eqb _ _ _ Hsame).
Qed.

(** A cached call never replaces or removes an entry: an entry that is
    stored before the call and that the computation keeps is stored
    with the same output after the call; and a key that is absent, does
    not collide with the forward key and is not stored by the
    computation is absent after the call. *)
Theorem entries_are_kept f self inputs w k :
  forall o w', cached f self inputs w = (o, w') ->
  (forall out,
     lookup k w = Some out ->
     (forall w0 o1 w1, f self inputs w0 = (o1, w1) ->
        lookup k w0 = Some out -> lookup k w1 = Some out) ->
     lookup k w' = Some out) /\
  (lookup k w = None ->
   collide (forward_key self inputs) k = false ->
   (forall w0 o1 w1, f self inputs w0 = (o1, w1) ->
      lookup k w0 = None -> lookup k w1 = None) ->
   lookup k w' = None).
Proof.
  intros o w' Hcall.
  destruct (lookup (forward_key self inputs) w) as [v|] eqn:Hfwd.
  { rewrite (cache_hit _ _ f self inputs w v Hfwd) in Hcall.
    injection Hcall as _ <-. split; intros; assumption. }
  destruct (lookup (reversed_key self inputs) w) as [s|] eqn:Hrev.
  { rewrite (cache_reversed_hit _ _ f self inputs w s Hfwd Hrev) in Hcall.
    injection Hcall as _ <-. split; intros; assumption. }
  destruct (f self inputs (entered self w)) as [[out1|e] w1] eqn:Hrun.
  - rewrite (cache_miss_returned _ _ f self inputs w out1 w1 Hfwd Hrev Hrun)
      in Hcall.
    injection Hcall as _ <-. split.
    + intros out Hk Hkeeps.
      assert (Hdiff : collide (forward_key self inputs) k = false).
      { destruct (collide (forward_key self inputs) k) eqn:E; [|reflexivity].
        rewrite (lookup_eqb _ _ w E) in Hfwd. congruence. }
      unfold lookup, left_with; simpl.
      rewrite dict_get_set_other by exact Hdiff.
      exact (Hkeeps _ _ _ Hrun Hk).
    + intros Hk Hdiff Hkeeps.
      unfold lookup, left_with; simpl.
      rewrite dict_get_set_other by exact Hdiff.
      exact (Hkeeps _ _ _ Hrun Hk).
  - rewrite (cache_miss_raised _ _ f self inputs w e w1 Hfwd Hrev Hrun)
      in Hcall.
    injection Hcall as _ <-. split.
    + intros out Hk Hkeeps. exact (Hkeeps _ _ _ Hrun Hk).
    + intros Hk _ Hkeeps. exact (Hkeeps _ _ _ Hrun Hk).
Qed.

(** With inputs that read the same in both directions, such as the one
    input of a mean or the pair [(x, x)], there is no reversed hit: a
    call that misses the forward key runs the computation. *)
Theorem symmetric_inputs_are_computed f self inputs w :
  (rev inputs = inputs \/ (List.length inputs <= 1)%nat) ->
  lookup (forward_key self inputs) w = None ->
  cached f self inputs w =
    match f self inputs (entered self w) with
    | (Returned out, w1) => (Returned out, left_with self inputs out w1)
    | (Raised e, w1) => (Raised e, w1)
    end.
Proof.
  intros Hsym Hfwd.
  assert (Hrev : rev inputs = inputs).
  { destruct Hsym as [H|H]; [exact H|].
    destruct inputs as [|x [|y l]]; try reflexivity. simpl in H. lia. }
  assert (Hnone : lookup (reversed_key self inputs) w = None).
  { unfold reversed_key. rewrite Hrev. exact Hfwd. }
  destruct (f self inputs (entered self w)) as [[out|e] w1] eqn:Hrun.
  - now apply cache_miss_returned.
  - now apply cache_miss_raised.
Qed.

Lemma owners_keys_apart self self' (l l' : list value) :
  collide self self' = false ->
  collide (forward_key self l) (forward_key self' l') = false.
Proof.
  intros Hne.
  destruct (collide (forward_key self l) (forward_key self' l')) eqn:E;
    [|reflexivity].
  unfold collide, forward_key in E, Hne. cbn [_resolve map] in E.
  rewrite key_eqb_tuple in E. cbn [keys_eqb] in E.
  rewrite Hne in E. discriminate.
Qed.

(** A cached call changes at a key that does not collide with its
    forward key only what its computation changes there. *)
Lemma cached_frame f self inputs w k' :
  collide (forward_key self inputs) k' = false ->
  (forall w0 o1 w1,
      f self inputs w0 = (o1, w1) -> lookup k' w1 = lookup k' w0) ->
  lookup k' (snd (cached f self inputs w)) = lookup k' w.
Proof.
  intros Hk' Hleaves.
  destruct (lookup (forward_key self inputs) w) as [v|] eqn:Hfwd.
  { now rewrite (cache_hit _ _ f self inputs w v Hfwd). }
  destruct (lookup (reversed_key self inputs) w) as [s|] eqn:Hrev.
  { now rewrite (cache_reversed_hit _ _ f self inputs w s Hfwd Hrev). }
  destruct (f self inputs (entered self w)) as [[out1|e] w1] eqn:Hrun.
  - rewrite (cache_miss_returned _ _ f self inputs w out1 w1 Hfwd Hrev Hrun).
    cbn [snd]. unfold lookup at 1, left_with; simpl.
    rewrite dict_get_set_other by exact Hk'.
    exact (Hleaves _ _ _ Hrun).
  - rewrite (cache_miss_raised _ _ f self inputs w e w1 Hfwd Hrev Hrun).
    cbn [snd]. exact (Hleaves _ _ _ Hrun).
Qed.

(** Owners that do not collide, such as two kernel objects at different
    addresses, have separate entries: their keys never collide,
    whatever the inputs are, in either order of the inputs; so a cached
    call of one owner, whose computation leaves the keys of the other
    owner alone, does not change what the other owner finds in the
    cache.  The computation may change any other key, as the nested
    cached call of a third owner does. *)
Theorem owners_are_kept_apart f self self' inputs inputs' w :
  collide self self' = false ->
  collide (forward_key self inputs) (forward_key self' inputs') = false /\
  collide (forward_key self inputs) (reversed_key self' inputs') = false /\
  ((forall l' w0 o1 w1,
      f self inputs w0 = (o1, w1) ->
      lookup (forward_key self' l') w1 = lookup (forward_key self' l') w0) ->
   lookup (forward_key self' inputs') (snd (cached f self inputs w)) =
     lookup (forward_key self' inputs') w /\
   lookup (reversed_key self' inputs') (snd (cached f self inputs w)) =
     lookup (reversed_key self' inputs') w).
Proof.
  intros Hne.
  split; [now apply owners_keys_apart|].
  split; [now apply owners_keys_apart|].
  intros Hleaves.
  split; apply cached_frame;
    solve [now apply owners_keys_apart | apply Hleaves].
Qed.

End CacheEntries.

Section CacheEntriesInstances.

Import PyCache CacheExample ExtraExample.

Abbreviation cached_matrix := (cache matrix mat_transpose).

Lemma setitem_then_getitem_witness :
  __getitem__ matrix x2 (snd (__setitem__ matrix x1 k12 fresh_world)) =
    (Raised KeyError, snd (__setitem__ matrix x1 k12 fresh_world)) /\
  __getitem__ matrix x2 fresh_world = (Raised KeyError, fresh_world).
Proof.
  destruct (setitem_then_getitem matrix x1 k12 fresh_world)
    as (_ & Hother & _ & _).
  destruct (setitem_then_getitem matrix x2 k12 fresh_world)
    as (_ & _ & _ & Hmissing).
  split.
  - apply (Hother x2). reflexivity.
  - apply Hmissing. reflexivity.
Defined.

Lemma colliding_keys_share_entries_witness :
  cached_matrix (plain [[0]]) (VInt 9002) [VList [VBool true; VInt 2]] w12 =
    (Returned k12, logged (LogHit "int") w12).
Proof.
  destruct (colliding_keys_share_entries matrix mat_transpose)
    as (_ & _ & _ & _ & Hhit).
  apply (Hhit (plain [[0]]) k_eq [VTuple [VInt 1; VInt 2]]
           (VInt 9002) [VList [VBool true; VInt 2]] w12 k12);
    reflexivity.
Defined.

Lemma raising_computation_stores_nothing_witness :
  cached_matrix failing k_eq [x1; x2] fresh_world =
    (Raised (OtherError "ValueError"), entered k_eq fresh_world) /\
  depth (the_cache (entered k_eq (@fresh_world matrix))) = 0 + 1 /\
  lookup (forward_key k_eq [x1; x2]) (entered k_eq (@fresh_world matrix)) = None.
Proof.
  destruct (raising_computation_stores_nothing matrix mat_transpose failing
              k_eq [x1; x2] fresh_world (OtherError "ValueError")
              (entered k_eq fresh_world) eq_refl eq_refl eq_refl)
    as (Hraise & Hleft).
  destruct (Hleft eq_refl) as (Hdepth & Hfwd & _).
  now repeat split.
Defined.

Lemma reversed_call_after_miss_witness :
  cached_matrix (plain [[0]]) k_eq [x2; x1]
    (snd (cached_matrix (plain k12) k_eq [x1; x2] fresh_world)) =
  (Returned [[1; 4]; [2; 5]; [3; 6]],
   logged (LogReversedHit "EQ")
     (snd (cached_matrix (plain k12) k_eq [x1; x2] fresh_world))).
Proof.
  apply (reversed_call_after_miss matrix mat_transpose (plain k12) (plain [[0]])
           k_eq [x1; x2] fresh_world k12 (entered k_eq fresh_world)
           eq_refl eq_refl eq_refl);
    reflexivity.
Defined.

Lemma entries_are_kept_witness :
  lookup (forward_key k_eq [x2; x1])
    (snd (cached_matrix (plain [[0]]) k_linear [x1] w21)) = Some k12.
Proof.
  apply (entries_are_kept matrix mat_transpose (plain [[0]]) k_linear [x1] w21
           (forward_key k_eq [x2; x1])
           (fst (cached_matrix (plain [[0]]) k_linear [x1] w21))
           (snd (cached_matrix (plain [[0]]) k_linear [x1] w21))
           eq_refl).
  - reflexivity.
  - intros w0 o1 w1 Hrun Hstored. unfold plain in Hrun.
    now injection Hrun as _ <-.
Defined.

Lemma symmetric_inputs_are_computed_witness :
  cached_matrix (plain k12) k_eq [x1] fresh_world =
    (Returned k12, left_with k_eq [x1] k12 (entered k_eq fresh_world)).
Proof.
  apply (symmetric_inputs_are_computed matrix mat_transpose (plain k12) k_eq
           [x1] fresh_world).
  - right. simpl. lia.
  - reflexivity.
Defined.

Lemma owners_are_kept_apart_witness :
  collide (forward_key k_eq [x1; x2]) (forward_key k_linear [x1; x2]) = false /\
  lookup (forward_key k_linear [x1])
    (snd (cache Z (fun t => t) nested k_sum [x1] w_linear1)) = Some 1 /\
  lookup (forward_key k_eq [x1])
    (snd (cache Z (fun t => t) nested k_sum [x1] w_linear1)) = Some 2.
Proof.
  destruct (owners_are_kept_apart matrix mat_transpose (plain [[0]])
              k_eq k_linear [x1; x2] [x1; x2] fresh_world eq_refl)
    as (Hkeys & _ & _).
  destruct (owners_are_kept_apart Z (fun t => t) nested
              k_sum k_linear [x1] [x1] w_linear1 eq_refl)
    as (_ & _ & Hframe).
  split; [exact Hkeys|]. split; [|reflexivity].
  apply Hframe. intros l' w0 o1 w1 Hrun. unfold nested in Hrun.
  rewrite <- (cached_frame Z (fun t => t) probe k_eq [x1] w0
                (forward_key k_linear l')).
  - now rewrite Hrun.
  - now apply owners_keys_apart.
  - intros w2 o2 w3 Hprobe. unfold probe in Hprobe.
    now injection Hprobe as _ <-.
Defined.

End CacheEntriesInstances.

(* ================================================================== *)
(** * The cache of the backend calls                                   *)
(* ================================================================== *)

Section SortedItems.

Import PyCache PyLab.

Lemma leb_lt_or_eq (a b : string) :
  String.leb a b = true <->
  OrderedTypeEx.String_as_OT.lt a b \/ a = b.
Proof.
  unfold String.leb.
  pose proof (OrderedTypeEx.String_as_OT.cmp_lt a b) as Hlt.
  pose proof (OrderedTypeEx.String_as_OT.cmp_eq a b) as Heq.
  unfold OrderedTypeEx.String_as_OT.cmp in *.
  destruct (String.compare a b) eqn:E; split; intros H;
    try discriminate; try reflexivity.
  - right. now apply Heq.
  - left. now apply Hlt.
  - destruct H as [H|H]; [apply Hlt in H | apply Heq in H]; discriminate.
Qed.

Lemma leb_trans (a b c : string) :
  String.leb a b = true -> String.leb b c = true -> String.leb a c = true.
Proof.
  rewrite !leb_lt_or_eq. intros [H1 | ->] [H2 | ->]; auto.
  left. exact (OrderedTypeEx.String_as_OT.lt_trans a b c H1 H2).
Qed.

Lemma leb_false_flip (a b : string) :
  String.leb a b = false -> String.leb b a = true.
Proof.
  intros H. destruct (String.leb_total a b) as [H'|H']; [congruence|exact H'].
Qed.

(** Inserting two items with different names commutes. *)
Lemma insert_item_ordered (x y : string * value) (l : list (string * value)) :
  String.leb (fst x) (fst y) = true ->
  String.leb (fst y) (fst x) = false ->
  insert_item x (insert_item y l) = insert_item y (insert_item x l).
Proof.
  intros Hxy Hyx. induction l as [|z l IH]; simpl.
  - now rewrite Hxy, Hyx.
  - destruct (String.leb (fst y) (fst z)) eqn:Hyz.
    + rewrite (leb_trans _ _ _ Hxy Hyz). simpl.
      now rewrite Hxy, Hyx, Hyz.
    + destruct (String.leb (fst x) (fst z)) eqn:Hxz; simpl.
      * now rewrite Hxz, Hyx, Hyz.
      * now rewrite Hxz, Hyz, IH.
Qed.

Lemma insert_item_comm (x y : string * value) (l : list (string * value)) :
  fst x <> fst y ->
  insert_item x (insert_item y l) = insert_item y (insert_item x l).
Proof.
  intros Hne.
  destruct (String.leb (fst x) (fst y)) eqn:Hxy,
           (String.leb (fst y) (fst x)) eqn:Hyx.
  - destruct Hne. now apply String.leb_antisym.
  - now apply insert_item_ordered.
  - symmetry. now apply insert_item_ordered.
  - apply leb_false_flip in Hxy. congruence.
Qed.

(** The sorted items do not depend on the order of the keyword
    arguments. *)
Lemma sorted_permutation (l l' : list (string * value)) :
  Permutation l l' -> NoDup (map fst l) -> sorted l = sorted l'.
Proof.
  unfold sorted. induction 1 as [|x l l' Hperm IH|x y l|l l' l'' H1 IH1 H2 IH2];
    intros Hnodup; simpl.
  - reflexivity.
  - inversion Hnodup; subst. now rewrite IH.
  - apply insert_item_comm. inversion Hnodup; subst.
    intros Heq. apply H1. left. now symmetry.
  - rewrite IH1 by exact Hnodup. apply IH2.
    apply (Permutation_NoDup (l := map fst l)); [|exact Hnodup].
    now apply Permutation_map.
Qed.

End SortedItems.

Section LabCache.

Import PyCache PyLab.

Variable tensor : Type.

Implicit Types (B : backend tensor) (f g : string) (args : list value)
  (kw_args : list (string * value)) (c : lab tensor).

Lemma lab_key_tuple f args kw_args :
  lab_key f args kw_args =
  KTuple (KStr f :: map _resolve args ++
          map _resolve
            (map (fun kv => VTuple [VStr (fst kv); snd kv]) (sorted kw_args))).
Proof.
  unfold lab_key. destruct kw_args as [|kv kw]; simpl.
  - now rewrite app_nil_r.
  - reflexivity.
Qed.

Lemma call_cached_hit B f args kw_args c out :
  dict_get (lab_key f args kw_args) (_cache_lab c) = Some out ->
  call_cached tensor B f args kw_args c =
  (Returned out, {| _cache_lab := _cache_lab c; log_lab := log_lab c ++ [f] |}).
Proof. intros H. unfold call_cached. now rewrite H. Qed.

Lemma call_cached_stored B f args kw_args c out c1 :
  call_cached tensor B f args kw_args c = (Returned out, c1) ->
  dict_get (lab_key f args kw_args) (_cache_lab c1) = Some out.
Proof.
  unfold call_cached.
  destruct (dict_get (lab_key f args kw_args) (_cache_lab c)) as [v|] eqn:Hget.
  - intros H. injection H as <- <-. exact Hget.
  - destruct (B f args kw_args) as [v|e]; [|discriminate].
    simpl. rewrite dict_get_set_same. intros H. injection H as <- <-.
    simpl. apply dict_get_set_same.
Qed.

(** A call that returned is remembered: the same call afterwards
    returns the same output whatever the backend function would do, and
    changes nothing but the log; a call whose backend function raises
    stores nothing and leaves the cache as it is. *)
Theorem call_cached_memoises B f args kw_args c :
  (forall out c1,
     call_cached tensor B f args kw_args c = (Returned out, c1) ->
     forall B',
       call_cached tensor B' f args kw_args c1 =
       (Returned out,
        {| _cache_lab := _cache_lab c1; log_lab := log_lab c1 ++ [f] |})) /\
  (forall e,
     dict_get (lab_key f args kw_args) (_cache_lab c) = None ->
     B f args kw_args = Raised e ->
     call_cached tensor B f args kw_args c = (Raised e, c)).
Proof.
  split.
  - intros out c1 Hcall B'. apply call_cached_hit.
    exact (call_cached_stored B f args kw_args c out c1 Hcall).
  - intros e Hget Hraise. unfold call_cached. now rewrite Hget, Hraise.
Qed.

(** The order of the keyword arguments in the call does not matter:
    the key is the same, so after a call that returned, the call with
    the keyword arguments in another order returns the stored output
    without calling the backend. *)
Theorem keyword_order_is_irrelevant f args kw_args kw_args' :
  Permutation kw_args kw_args' ->
  NoDup (map fst kw_args) ->
  lab_key f args kw_args = lab_key f args kw_args' /\
  forall B c out c1,
    call_cached tensor B f args kw_args c = (Returned out, c1) ->
    forall B',
      call_cached tensor B' f args kw_args' c1 =
      (Returned out,
       {| _cache_lab := _cache_lab c1; log_lab := log_lab c1 ++ [f] |}).
Proof.
  intros Hperm Hnodup.
  assert (Hkey : lab_key f args kw_args = lab_key f args kw_args').
  { rewrite !lab_key_tuple. now rewrite (sorted_permutation _ _ Hperm Hnodup). }
  split; [exact Hkey|].
  intros B c out c1 Hcall B'. apply call_cached_hit. rewrite <- Hkey.
  exact (call_cached_stored B f args kw_args c out c1 Hcall).
Qed.

(** The keys of two functions of different names never collide, so a
    call of one function leaves the entries of every other function as
    they are and is never answered from them. *)
Theorem function_names_are_kept_apart f g args args' kw_args kw_args' :
  f <> g ->
  key_eqb (lab_key f args kw_args) (lab_key g args' kw_args') = false /\
  forall B c,
    dict_get (lab_key g args' kw_args')
      (_cache_lab (snd (call_cached tensor B f args kw_args c))) =
    dict_get (lab_key g args' kw_args') (_cache_lab c).
Proof.
  intros Hne.
  assert (Hkey : key_eqb (lab_key f args kw_args) (lab_key g args' kw_args')
                 = false).
  { rewrite !lab_key_tuple, key_eqb_tuple. simpl.
    now apply String.eqb_neq in Hne as ->. }
  split; [exact Hkey|].
  intros B c. unfold call_cached.
  destruct (dict_get (lab_key f args kw_args) (_cache_lab c)); [reflexivity|].
  destruct (B f args kw_args) as [v|e]; simpl; [|reflexivity].
  rewrite dict_get_set_same. simpl. now apply dict_get_set_other.
Qed.

(** Keyword arguments are not told apart from pairs at the end of the
    arguments: the call with the pairs [(name, value)] of the sorted
    keyword arguments as last arguments has the key of the call with
    the keyword arguments, and is answered from its entry. *)
Theorem keywords_collide_with_pairs f args kw_args :
  let pairs :=
    map (fun kv => VTuple [VStr (fst kv); snd kv]) (sorted kw_args) in
  lab_key f (args ++ pairs) [] = lab_key f args kw_args /\
  forall B c out c1,
    call_cached tensor B f args kw_args c = (Returned out, c1) ->
    forall B',
      fst (call_cached tensor B' f (args ++ pairs) [] c1) = Returned out.
Proof.
  intros pairs.
  assert (Hkey : lab_key f (args ++ pairs) [] = lab_key f args kw_args).
  { rewrite !lab_key_tuple. simpl. rewrite app_nil_r. now rewrite map_app. }
  split; [exact Hkey|].
  intros B c out c1 Hcall B'.
  rewrite (call_cached_hit B' f (args ++ pairs) [] c1 out); [reflexivity|].
  rewrite Hkey.
  exact (call_cached_stored B f args kw_args c out c1 Hcall).
Qed.

End LabCache.

Section LabCacheInstances.

Import PyCache PyLab CacheExample ExtraExample.

Lemma call_cached_memoises_witness :
  call_cached matrix no_backend "ones" [VInt 2] []
    (snd (call_cached matrix ones_backend "ones" [VInt 2] [] lab_init)) =
  (Returned [[1; 1]],
   {| _cache_lab :=
        _cache_lab (snd (call_cached matrix ones_backend "ones" [VInt 2] []
                           lab_init));
      log_lab := ["ones"%string] |}) /\
  call_cached matrix no_backend "ones" [VInt 2] [] lab_init =
    (Raised (OtherError "AttributeError"), lab_init).
Proof.
  split.
  - apply (proj1 (call_cached_memoises matrix ones_backend "ones" [VInt 2] []
                    lab_init) [[1; 1]]
             (snd (call_cached matrix ones_backend "ones" [VInt 2] [] lab_init))).
    reflexivity.
  - apply (proj2 (call_cached_memoises matrix no_backend "ones" [VInt 2] []
                    lab_init));
      reflexivity.
Defined.

Lemma shape_then_dtype_names :
  NoDup (map fst shape_then_dtype).
Proof.
  repeat constructor; simpl; intuition discriminate.
Qed.

Lemma keyword_order_is_irrelevant_witness :
  lab_key "ones" [] shape_then_dtype = lab_key "ones" [] dtype_then_shape /\
  call_cached matrix no_backend "ones" [] dtype_then_shape
    (snd (call_cached matrix ones_backend "ones" [] shape_then_dtype lab_init))
  = (Returned [[1; 1]],
     {| _cache_lab :=
          _cache_lab (snd (call_cached matrix ones_backend "ones" []
                             shape_then_dtype lab_init));
        log_lab := ["ones"%string] |}).
Proof.
  destruct (keyword_order_is_irrelevant matrix "ones" [] shape_then_dtype
              dtype_then_shape (perm_swap _ _ []) shape_then_dtype_names)
    as (Hkey & Hhit).
  split; [exact Hkey|].
  apply (Hhit ones_backend lab_init [[1; 1]]
           (snd (call_cached matrix ones_backend "ones" [] shape_then_dtype
                   lab_init))).
  reflexivity.
Defined.

Lemma function_names_are_kept_apart_witness :
  key_eqb (lab_key "ones" [VInt 2] []) (lab_key "zeros" [VInt 2] []) = false /\
  dict_get (lab_key "zeros" [VInt 2] [])
    (_cache_lab (snd (call_cached matrix ones_backend "ones" [VInt 2] []
                        lab_init))) = None.
Proof.
  destruct (function_names_are_kept_apart matrix "ones" "zeros" [VInt 2]
              [VInt 2] [] []) as (Hkey & Hframe).
  - discriminate.
  - split; [exact Hkey|]. apply (Hframe ones_backend lab_init).
Defined.

Lemma keywords_collide_with_pairs_witness :
  fst (call_cached matrix no_backend "ones"
         [VInt 2; VTuple [VStr "dtype"; VStr "float"]] []
         (snd (call_cached matrix ones_backend "ones" [VInt 2]
                 [("dtype"%string, VStr "float")] lab_init)))
  = Returned [[1; 1]].
Proof.
  apply (proj2 (keywords_collide_with_pairs matrix "ones" [VInt 2]
                  [("dtype"%string, VStr "float")])
           ones_backend lab_init [[1; 1]]
           (snd (call_cached matrix ones_backend "ones" [VInt 2]
                   [("dtype"%string, VStr "float")] lab_init))).
  reflexivity.
Defined.

End LabCacheInstances.

(* ================================================================== *)
(** * More on the Normal distribution                                  *)
(* ================================================================== *)

Section NormalReads.

Import PyRandom.

Variable array : Type.
Variable dtype : Type.
Variable seed : Type.
Variable isinstance_Zero : array -> bool.
Variable convert_AbstractMatrix : pyobj array -> array.
Variable B_dtype : pyobj array -> dtype.
Variable B_shape0 : pyobj array -> Z.
Variable B_zeros : dtype -> Z -> Z -> array.
Variable B_fill_diag : pyobj array -> Z -> array.
Variable B_sample : seed -> pyobj array -> Z -> array.
Variable B_dense : pyobj array -> array.
Variable py_add : pyobj array -> pyobj array -> pyobj array.
Variable object_add object_mul : pyobj array -> pyobj array -> outcome array.
Variable object_pow : array -> nat -> outcome array.
Variable object_neg : array -> outcome array.
Variable object_truediv : pyobj array -> pyobj array -> outcome array.
Variable int_truediv : Z -> Z -> array.

(** [convert] returns an object that is an [AbstractMatrix] already as
    it is. *)
Hypothesis convert_AbstractMatrix_idem :
  forall x,
    convert_AbstractMatrix (Arr (convert_AbstractMatrix x)) =
    convert_AbstractMatrix x.

Abbreviation var_ := (var array convert_AbstractMatrix).
Abbreviation rvar := (resolved_var array convert_AbstractMatrix).
Abbreviation avar := (after_var array convert_AbstractMatrix).
Abbreviation mean_ :=
  (mean array dtype isinstance_Zero convert_AbstractMatrix B_dtype B_shape0 B_zeros).
Abbreviation rmean :=
  (resolved_mean array dtype convert_AbstractMatrix B_dtype B_shape0 B_zeros).
Abbreviation amean :=
  (after_mean array dtype isinstance_Zero convert_AbstractMatrix B_dtype
     B_shape0 B_zeros).
Abbreviation mean_is_zero_ :=
  (mean_is_zero array dtype isinstance_Zero convert_AbstractMatrix B_dtype
     B_shape0 B_zeros).
Abbreviation rzero := (resolved_mean_is_zero array isinstance_Zero).
Abbreviation azero := (after_mean_is_zero array isinstance_Zero).
Abbreviation sample_ :=
  (sample array dtype seed isinstance_Zero convert_AbstractMatrix B_dtype
     B_shape0 B_zeros B_fill_diag B_sample B_dense py_add).
Abbreviation add_ :=
  (__add__ array dtype isinstance_Zero convert_AbstractMatrix B_dtype B_shape0
     B_zeros py_add object_add).
Abbreviation mul_ :=
  (__mul__ array dtype isinstance_Zero convert_AbstractMatrix B_dtype B_shape0
     B_zeros object_mul object_pow).
Abbreviation oadd := (operator_add array object_add).
Abbreviation omul := (operator_mul array object_mul).
Abbreviation opow := (operator_pow array object_pow).

Implicit Types (n o : Normal array) (x c : pyobj array).

Lemma run_var n : well_formed n -> var_ n = (Returned (rvar n), avar n).
Proof. apply var_run. Qed.

Lemma run_mean n : well_formed n -> mean_ n = (Returned (rmean n), amean n).
Proof. now apply mean_run. Qed.

Lemma run_mean_is_zero n :
  well_formed n -> mean_is_zero_ n = (Returned (Some (rzero n)), azero n).
Proof. apply mean_is_zero_run. Qed.

(** The resolved values are the same in the object that a read has
    left. *)
Lemma constructed_mean_after_mean n :
  constructed_mean array (amean n) = rmean n.
Proof.
  unfold after_mean. unfold constructed_mean at 1; simpl.
  unfold resolved_mean, constructed_mean, or_constructed.
  destruct (_mean n) as [|z|a] eqn:Em; simpl.
  - destruct (_construct_mean n) as [construct|]; simpl; [|reflexivity].
    destruct (construct tt) as [|z|a] eqn:Ec; simpl; rewrite ?Ec;
      try reflexivity.
    now destruct z.
  - now destruct z.
  - reflexivity.
Qed.

Lemma resolved_mean_after_mean n : rmean (amean n) = rmean n.
Proof.
  unfold resolved_mean at 1.
  rewrite constructed_mean_after_mean.
  rewrite (resolved_var_after_mean array dtype isinstance_Zero
             convert_AbstractMatrix B_dtype B_shape0 B_zeros
             convert_AbstractMatrix_idem n).
  unfold resolved_mean.
  destruct (is_0 (constructed_mean array n)) eqn:E0; simpl; [reflexivity|].
  now rewrite E0.
Qed.

Lemma resolved_mean_after_var n : rmean (avar n) = rmean n.
Proof.
  unfold resolved_mean.
  change (constructed_mean array (avar n)) with (constructed_mean array n).
  now rewrite (resolved_var_after_var array convert_AbstractMatrix
                 convert_AbstractMatrix_idem n).
Qed.

Lemma resolved_mean_after_zero n : rmean (azero n) = rmean n.
Proof.
  unfold resolved_mean. now rewrite constructed_mean_idem.
Qed.

Lemma resolved_zero_after_mean n : rzero (amean n) = rzero n.
Proof. reflexivity. Qed.

Lemma resolved_zero_after_zero n : rzero (azero n) = rzero n.
Proof. reflexivity. Qed.

Lemma resolved_zero_after_var n : rzero (avar n) = rzero n.
Proof. reflexivity. Qed.

Lemma resolved_var_after_zero n : rvar (azero n) = rvar n.
Proof. reflexivity. Qed.

Lemma after_mean_twice n : amean (amean n) = amean n.
Proof.
  unfold after_mean at 1.
  rewrite resolved_mean_after_mean, constructed_mean_after_mean.
  rewrite (resolved_var_after_mean array dtype isinstance_Zero
             convert_AbstractMatrix B_dtype B_shape0 B_zeros
             convert_AbstractMatrix_idem n).
  unfold after_mean, resolved_mean; simpl.
  destruct (is_0 (constructed_mean array n)) eqn:E0; simpl; [reflexivity|].
  now rewrite E0.
Qed.

Lemma after_zero_twice n : azero (azero n) = azero n.
Proof.
  unfold after_mean_is_zero at 1. rewrite constructed_mean_idem. reflexivity.
Qed.

(** [sample] with the object it leaves. *)
Lemma run_sample (s : seed) (num : Z) (noise : pyobj array) n :
  well_formed n ->
  let V := rvar n in
  let covariance :=
    if is_None noise then V else py_add (Arr (B_fill_diag noise (B_shape0 V))) V in
  let drawn := Arr (B_sample s covariance num) in
  sample_ s num noise n =
  (Returned (B_dense (if rzero n then drawn else py_add drawn (rmean n))),
   if rzero n then azero (avar n) else amean (azero (avar n))).
Proof.
  intros Hwf V covariance drawn.
  pose proof (well_formed_after_var array convert_AbstractMatrix n Hwf) as Hwf1.
  pose proof (after_var_twice array convert_AbstractMatrix
                convert_AbstractMatrix_idem n) as Htwice.
  pose proof (resolved_var_after_var array convert_AbstractMatrix
                convert_AbstractMatrix_idem n) as Hsame.
  unfold sample. unfold bind at 1. rewrite (run_var n Hwf).
  unfold bind at 1.
  assert (Hcov :
    (if negb (is_None noise)
     then bind array (dim array convert_AbstractMatrix B_shape0)
            (fun d => bind array var_
               (fun v2 => ret array (py_add (Arr (B_fill_diag noise d)) v2)))
     else ret array (rvar n)) (avar n) = (Returned covariance, avar n)).
  { unfold covariance, V. destruct (is_None noise); simpl; [reflexivity|].
    unfold dim. unfold bind, ret. rewrite (run_var _ Hwf1).
    rewrite Htwice, (run_var _ Hwf1).
    now rewrite Htwice, Hsame. }
  rewrite Hcov. unfold bind at 1.
  rewrite (run_mean_is_zero _ Hwf1).
  change (rzero (avar n)) with (rzero n).
  unfold bind at 1. fold drawn.
  destruct (rzero n); simpl.
  - reflexivity.
  - unfold bind at 1.
    rewrite (run_mean _ (well_formed_after_mean_is_zero array isinstance_Zero
                           _ Hwf1)).
    rewrite resolved_mean_after_zero, resolved_mean_after_var.
    reflexivity.
Qed.

(** The properties [var], [mean] and [mean_is_zero] do not interfere:
    in the object that a read of one of them has left, each of the three
    has the value it has in the object before the read; in particular
    [mean_is_zero] still tells that the mean is zero after [mean] has
    put the zeros of [B.zeros] in the place of the [int] 0. *)
Theorem property_reads_commute n n' :
  well_formed n ->
  n' = snd (var_ n) \/ n' = snd (mean_ n) \/ n' = snd (mean_is_zero_ n) ->
  well_formed n' /\
  fst (var_ n') = fst (var_ n) /\
  fst (mean_ n') = fst (mean_ n) /\
  fst (mean_is_zero_ n') = fst (mean_is_zero_ n).
Proof.
  intros Hwf Hread.
  rewrite (run_var n Hwf), (run_mean n Hwf), (run_mean_is_zero n Hwf) in *.
  cbn [fst snd] in *.
  destruct Hread as [-> | [-> | ->]].
  - pose proof (well_formed_after_var array convert_AbstractMatrix n Hwf) as H1.
    rewrite (run_var _ H1), (run_mean _ H1), (run_mean_is_zero _ H1).
    cbn [fst].
    rewrite resolved_mean_after_var.
    rewrite (resolved_var_after_var array convert_AbstractMatrix
               convert_AbstractMatrix_idem n).
    split; [exact H1|]. now repeat split.
  - pose proof (well_formed_after_mean array dtype isinstance_Zero
                  convert_AbstractMatrix B_dtype B_shape0 B_zeros n Hwf) as H1.
    rewrite (run_var _ H1), (run_mean _ H1), (run_mean_is_zero _ H1).
    cbn [fst].
    rewrite resolved_mean_after_mean.
    rewrite (resolved_var_after_mean array dtype isinstance_Zero
               convert_AbstractMatrix B_dtype B_shape0 B_zeros
               convert_AbstractMatrix_idem n).
    split; [exact H1|]. now repeat split.
  - pose proof (well_formed_after_mean_is_zero array isinstance_Zero n Hwf)
      as H1.
    rewrite (run_var _ H1), (run_mean _ H1), (run_mean_is_zero _ H1).
    cbn [fst].
    rewrite resolved_mean_after_zero.
    split; [exact H1|]. now repeat split.
Qed.

(** Each attribute is resolved once: a second read of [var], of [mean]
    or of [mean_is_zero] returns what the first read returned and
    leaves the object as the first read left it. *)
Theorem second_read_changes_nothing n :
  well_formed n ->
  var_ (snd (var_ n)) = var_ n /\
  mean_ (snd (mean_ n)) = mean_ n /\
  mean_is_zero_ (snd (mean_is_zero_ n)) = mean_is_zero_ n.
Proof.
  intros Hwf.
  rewrite (run_var n Hwf), (run_mean n Hwf), (run_mean_is_zero n Hwf).
  cbn [snd].
  rewrite (run_var _ (well_formed_after_var array convert_AbstractMatrix n Hwf)).
  rewrite (run_mean _ (well_formed_after_mean array dtype isinstance_Zero
                         convert_AbstractMatrix B_dtype B_shape0 B_zeros n Hwf)).
  rewrite (run_mean_is_zero _ (well_formed_after_mean_is_zero array
                                 isinstance_Zero n Hwf)).
  rewrite (after_var_twice array convert_AbstractMatrix
             convert_AbstractMatrix_idem n).
  rewrite (resolved_var_after_var array convert_AbstractMatrix
             convert_AbstractMatrix_idem n).
  rewrite after_mean_twice, resolved_mean_after_mean, after_zero_twice.
  now repeat split.
Qed.

Lemma rvar_amean n : rvar (amean n) = rvar n.
Proof.
  exact (resolved_var_after_mean array dtype isinstance_Zero
           convert_AbstractMatrix B_dtype B_shape0 B_zeros
           convert_AbstractMatrix_idem n).
Qed.

Lemma wf_amean n : well_formed n -> well_formed (amean n).
Proof.
  exact (well_formed_after_mean array dtype isinstance_Zero
           convert_AbstractMatrix B_dtype B_shape0 B_zeros n).
Qed.

Lemma wf_avar n : well_formed n -> well_formed (avar n).
Proof. exact (well_formed_after_var array convert_AbstractMatrix n). Qed.

Lemma wf_azero n : well_formed n -> well_formed (azero n).
Proof. exact (well_formed_after_mean_is_zero array isinstance_Zero n). Qed.

Lemma run_add_object c n s :
  well_formed n ->
  oadd (rmean n) c = Returned s ->
  add_ (OObject c) n =
  (Returned (Normal_mean_var s (rvar n), OObject c), avar (amean n)).
Proof.
  intros Hwf Hs. unfold __add__. unfold bind at 1. rewrite (run_mean n Hwf).
  unfold bind at 1. unfold eval at 1. rewrite Hs.
  unfold bind, ret. rewrite (run_var _ (wf_amean n Hwf)).
  now rewrite rvar_amean.
Qed.

Lemma run_mul_object c n s p q :
  well_formed n ->
  omul (rmean n) c = Returned s ->
  opow c 2 = Returned p ->
  omul (rvar n) p = Returned q ->
  mul_ (OObject c) n =
  (Returned (Normal_mean_var s q, OObject c), avar (amean n)).
Proof.
  intros Hwf Hs Hp Hq. unfold __mul__. unfold bind at 1.
  rewrite (run_mean n Hwf).
  unfold bind at 1. unfold eval at 1. rewrite Hs.
  unfold bind at 1. rewrite (run_var _ (wf_amean n Hwf)), rvar_amean.
  unfold bind at 1. unfold eval at 1. rewrite Hp.
  unfold bind at 1. unfold eval at 1. rewrite Hq.
  reflexivity.
Qed.

(** The operators return an [int] or an object of the backend. *)
Lemma operator_add_returns a b s : oadd a b = Returned s -> s <> PyNone.
Proof.
  unfold operator_add, backend_object.
  destruct a, b; try discriminate;
    try (destruct (object_add _ _); intros H; inversion H; discriminate).
  intros H; inversion H; discriminate.
Qed.

Lemma operator_mul_returns a b s : omul a b = Returned s -> s <> PyNone.
Proof.
  unfold operator_mul, backend_object.
  destruct a, b; try discriminate;
    try (destruct (object_mul _ _); intros H; inversion H; discriminate).
  intros H; inversion H; discriminate.
Qed.

Lemma run_add_normal o n :
  well_formed n -> well_formed o ->
  add_ (ONormal o) n =
  (Returned (Normal_mean_var (py_add (rmean n) (rmean o))
               (py_add (rvar n) (rvar o)),
             ONormal (avar (amean o))),
   avar (amean n)).
Proof.
  intros Hn Ho. unfold __add__, bind.
  rewrite (run_mean n Hn), (run_mean o Ho).
  rewrite (run_var _ (wf_amean n Hn)), (run_var _ (wf_amean o Ho)).
  now rewrite !rvar_amean.
Qed.

(** A [Normal] as an [__init__] makes it never lacks a constructor it
    needs, and the methods keep it so: on such an object [var], [mean],
    [mean_is_zero] and [sample] return, none of them raises, and the
    object they leave is such an object again. *)
Theorem methods_return_on_initialised_normals :
  (forall m v : pyobj array,
     m <> PyNone -> v <> PyNone -> well_formed (Normal_mean_var m v)) /\
  (forall v : pyobj array, v <> PyNone -> well_formed (Normal_var v)) /\
  (forall construct_mean construct_var : unit -> pyobj array,
     well_formed (Normal_constructors construct_mean construct_var)) /\
  (forall construct_var : unit -> pyobj array,
     well_formed (Normal_construct_var construct_var)) /\
  (forall n, well_formed n ->
     (exists v, var_ n = (Returned v, snd (var_ n))) /\
     (exists m, mean_ n = (Returned m, snd (mean_ n))) /\
     (exists z, mean_is_zero_ n = (Returned (Some z), snd (mean_is_zero_ n))) /\
     well_formed (snd (var_ n)) /\
     well_formed (snd (mean_ n)) /\
     well_formed (snd (mean_is_zero_ n)) /\
     forall s num noise,
       (exists out, sample_ s num noise n =
                    (Returned out, snd (sample_ s num noise n))) /\
       well_formed (snd (sample_ s num noise n))).
Proof.
  split; [|split; [|split; [|split]]].
  - intros m v Hm Hv. split; simpl; congruence.
  - intros v Hv. split; simpl; congruence.
  - intros cm cv. split; simpl; discriminate.
  - intros cv. split; simpl; discriminate.
  - intros n Hwf.
    rewrite (run_var n Hwf), (run_mean n Hwf), (run_mean_is_zero n Hwf).
    cbn [snd].
    split; [eexists; reflexivity|]. split; [eexists; reflexivity|].
    split; [eexists; reflexivity|].
    split; [now apply wf_avar|]. split; [now apply wf_amean|].
    split; [now apply wf_azero|].
    intros s num noise. rewrite (run_sample s num noise n Hwf). cbn [snd].
    split; [eexists; reflexivity|].
    destruct (rzero n).
    + now apply wf_azero, wf_avar.
    + now apply wf_amean, wf_azero, wf_avar.
Qed.

(** A [Normal] made from a variance alone: [mean_is_zero] is true, the
    mean is [B.zeros(dtype, dim, 1)] of the converted variance, and
    [sample] returns the drawn sample with no mean added.  With a mean
    that is an instance of [Zero] the flag is true as well and [mean]
    returns that instance; with any other object of the backend as
    mean, an array of zeros included, the flag is false. *)
Theorem variance_only_normal_has_zero_mean (s : seed) (num : Z) v (a : array) :
  v <> PyNone ->
  let V := Arr (convert_AbstractMatrix v) in
  let zeros := Arr (B_zeros (B_dtype V) (B_shape0 V) 1) in
  (fst (mean_is_zero_ (Normal_var v)) = Returned (Some true) /\
   fst (mean_ (Normal_var v)) = Returned zeros /\
   fst (sample_ s num PyNone (Normal_var v)) =
     Returned (B_dense (Arr (B_sample s V num)))) /\
  (fst (mean_is_zero_ (Normal_construct_var (fun _ => v))) = Returned (Some true) /\
   fst (mean_ (Normal_construct_var (fun _ => v))) = Returned zeros /\
   fst (sample_ s num PyNone (Normal_construct_var (fun _ => v))) =
     Returned (B_dense (Arr (B_sample s V num)))) /\
  fst (mean_is_zero_ (Normal_mean_var (Arr a) v)) =
    Returned (Some (isinstance_Zero a)) /\
  fst (mean_ (Normal_mean_var (Arr a) v)) = Returned (Arr a).
Proof.
  intros Hv V zeros.
  assert (H1 : well_formed (Normal_var v)) by (split; simpl; congruence).
  assert (H2 : well_formed (Normal_construct_var (fun _ => v)))
    by (split; simpl; discriminate).
  assert (H3 : well_formed (Normal_mean_var (Arr a) v))
    by (split; simpl; congruence).
  rewrite (run_mean_is_zero _ H1), (run_mean _ H1), (run_sample s num PyNone _ H1).
  rewrite (run_mean_is_zero _ H2), (run_mean _ H2), (run_sample s num PyNone _ H2).
  rewrite (run_mean_is_zero _ H3), (run_mean _ H3).
  cbn [fst].
  assert (Hvar1 : rvar (Normal_var v) = V).
  { unfold resolved_var, or_constructed; simpl. now destruct v. }
  assert (Hvar2 : rvar (Normal_construct_var (fun _ => v)) = V) by reflexivity.
  unfold resolved_mean. rewrite Hvar1, Hvar2.
  repeat split.
Qed.


Lemma resolved_after_sample (s : seed) (num : Z) (noise : pyobj array) n :
  well_formed n ->
  let n' := snd (sample_ s num noise n) in
  well_formed n' /\ rvar n' = rvar n /\ rzero n' = rzero n /\ rmean n' = rmean n.
Proof.
  intros Hwf. cbv zeta. rewrite (run_sample s num noise n Hwf). cbn [snd].
  pose proof (resolved_var_after_var array convert_AbstractMatrix
                convert_AbstractMatrix_idem n) as Hvar.
  destruct (rzero n) eqn:Ez.
  - split; [now apply wf_azero, wf_avar|].
    rewrite resolved_var_after_zero, Hvar, resolved_zero_after_zero.
    rewrite resolved_mean_after_zero, resolved_mean_after_var.
    now repeat split.
  - split; [now apply wf_amean, wf_azero, wf_avar|].
    rewrite rvar_amean, resolved_var_after_zero, Hvar.
    rewrite resolved_zero_after_mean, resolved_zero_after_zero.
    rewrite resolved_mean_after_mean, resolved_mean_after_zero,
      resolved_mean_after_var.
    now repeat split.
Qed.

(** What [sample] leaves in the object does not change what is
    sampled: after any call of [sample], a call with the generator in
    the state [s] returns what it returns on the object before that
    call. *)
Theorem sample_is_repeatable (s s' : seed) (num num' : Z)
    (noise noise' : pyobj array) n :
  well_formed n ->
  fst (sample_ s num noise (snd (sample_ s' num' noise' n))) =
  fst (sample_ s num noise n).
Proof.
  intros Hwf.
  destruct (resolved_after_sample s' num' noise' n Hwf)
    as (Hwf' & Hvar & Hzero & Hmean).
  rewrite (run_sample s num noise _ Hwf'), (run_sample s num noise n Hwf).
  cbn [fst]. now rewrite Hvar, Hzero, Hmean.
Qed.

Abbreviation oneg := (PyRandomOps.operator_neg array object_neg).
Abbreviation otruediv :=
  (PyRandomOps.operator_truediv array object_truediv int_truediv).
Abbreviation neg_ :=
  (PyRandomOps.__neg__ array dtype isinstance_Zero convert_AbstractMatrix
     B_dtype B_shape0 B_zeros object_mul object_pow).
Abbreviation sub_object_ :=
  (PyRandomOps.sub_object array dtype isinstance_Zero convert_AbstractMatrix
     B_dtype B_shape0 B_zeros py_add object_add object_neg).
Abbreviation sub_normal_ :=
  (PyRandomOps.sub_normal array dtype isinstance_Zero convert_AbstractMatrix
     B_dtype B_shape0 B_zeros py_add object_add object_mul object_pow).
Abbreviation rsub_object_ :=
  (PyRandomOps.rsub_object array dtype isinstance_Zero convert_AbstractMatrix
     B_dtype B_shape0 B_zeros py_add object_add object_mul object_pow).
Abbreviation truediv_ :=
  (PyRandomOps.__truediv__ array dtype isinstance_Zero convert_AbstractMatrix
     B_dtype B_shape0 B_zeros object_mul object_pow object_truediv
     int_truediv).

Lemma run_neg n s q :
  well_formed n ->
  omul (rmean n) (PyInt (-1)) = Returned s ->
  omul (rvar n) (PyInt 1) = Returned q ->
  neg_ n =
  (Returned (Normal_mean_var s q, OObject (PyInt (-1))), avar (amean n)).
Proof.
  intros Hwf Hs Hq. unfold PyRandomOps.__neg__, PyRandomOps.__rmul__.
  now apply (run_mul_object (PyInt (-1)) n s (PyInt 1) q).
Qed.

Lemma well_formed_negated s q a b a' b' :
  omul a b = Returned s -> omul a' b' = Returned q ->
  well_formed (Normal_mean_var s q).
Proof.
  intros Hs Hq. split; simpl; intros H.
  - destruct (operator_mul_returns a b s Hs H).
  - destruct (operator_mul_returns a' b' q Hq H).
Qed.

Lemma resolved_var_of_pair (s q : pyobj array) :
  rvar (Normal_mean_var s q) = Arr (convert_AbstractMatrix q).
Proof.
  unfold resolved_var, or_constructed; simpl. now destruct (is_None q).
Qed.

(** The arithmetic that [Random] derives from [+] and [*], with an
    operand [c] that is not a [Random].  [-N] is the [Normal] of
    [mean * -1] and [var * 1], [N - c] the [Normal] of [mean + (-c)]
    and [var], and [N / c] the [Normal] of [mean * (1 / c)] and
    [var * (1 / c) ** 2], when these operators return.  [-c] and
    [1 / c] are evaluated before the [Normal] is read: what they
    raise, a [TypeError] for [None] and a [ZeroDivisionError] for the
    [int] 0, leaves the method, and the [Normal] is as it was. *)
Theorem derived_arithmetic_with_a_scalar c n :
  well_formed n ->
  (forall s q,
     omul (rmean n) (PyInt (-1)) = Returned s ->
     omul (rvar n) (PyInt 1) = Returned q ->
     fst (neg_ n) = Returned (Normal_mean_var s q, OObject (PyInt (-1)))) /\
  (forall c' s,
     oneg c = Returned c' ->
     oadd (rmean n) c' = Returned s ->
     fst (sub_object_ c n) =
       Returned (Normal_mean_var s (rvar n), OObject c')) /\
  (forall e, oneg c = Raised e -> sub_object_ c n = (Raised e, n)) /\
  sub_object_ PyNone n = (Raised TypeError, n) /\
  (forall r s p q,
     otruediv (PyInt 1) c = Returned r ->
     omul (rmean n) r = Returned s ->
     opow r 2 = Returned p ->
     omul (rvar n) p = Returned q ->
     fst (truediv_ c n) = Returned (Normal_mean_var s q, OObject r)) /\
  (forall e, otruediv (PyInt 1) c = Raised e -> truediv_ c n = (Raised e, n)) /\
  truediv_ (PyInt 0) n = (Raised ZeroDivisionError, n) /\
  truediv_ PyNone n = (Raised TypeError, n).
Proof.
  intros Hwf.
  split; [|split; [|split; [|split; [|split; [|split; [|split]]]]]].
  - intros s q Hs Hq. now rewrite (run_neg n s q Hwf Hs Hq).
  - intros c' s Hc Hs. unfold PyRandomOps.sub_object.
    unfold bind at 1. unfold eval at 1. rewrite Hc.
    now rewrite (run_add_object c' n s Hwf Hs).
  - intros e He. unfold PyRandomOps.sub_object.
    unfold bind at 1. unfold eval at 1. now rewrite He.
  - reflexivity.
  - intros r s p q Hr Hs Hp Hq.
    unfold PyRandomOps.__truediv__, PyRandomOps.__div__.
    unfold bind at 1. unfold eval at 1. rewrite Hr.
    now rewrite (run_mul_object r n s p q Hwf Hs Hp Hq).
  - intros e He. unfold PyRandomOps.__truediv__, PyRandomOps.__div__.
    unfold bind at 1. unfold eval at 1. now rewrite He.
  - reflexivity.
  - reflexivity.
Qed.


End NormalReads.

Section NormalReadsInstances.

Import PyRandom RandomExample.

Abbreviation mean_Z :=
  (mean array unit zero_class convert (fun _ => tt) shape0 zeros).
Abbreviation var_Z := (var array convert).
Abbreviation mean_is_zero_Z :=
  (mean_is_zero array unit zero_class convert (fun _ => tt) shape0 zeros).
Abbreviation sample_Z :=
  (sample array unit Z zero_class convert (fun _ => tt) shape0 zeros
     fill_diag draw convert add).
Abbreviation add_Z :=
  (__add__ array unit zero_class convert (fun _ => tt) shape0 zeros add
     object_add).
Abbreviation mul_Z :=
  (__mul__ array unit zero_class convert (fun _ => tt) shape0 zeros
     object_mul object_pow).

Lemma property_reads_commute_witness :
  fst (mean_is_zero_Z (snd (mean_Z normal0))) = Returned (Some true) /\
  fst (mean_Z (snd (mean_is_zero_Z normal0))) = Returned (Arr [[0]; [0]]).
Proof.
  split.
  - apply (property_reads_commute array unit zero_class convert (fun _ => tt)
             shape0 zeros convert_idem normal0 (snd (mean_Z normal0))
             well_formed_normal0).
    right. left. reflexivity.
  - apply (property_reads_commute array unit zero_class convert (fun _ => tt)
             shape0 zeros convert_idem normal0 (snd (mean_is_zero_Z normal0))
             well_formed_normal0).
    right. right. reflexivity.
Defined.

Lemma second_read_changes_nothing_witness :
  mean_Z (snd (mean_Z normal0)) = mean_Z normal0 /\
  fst (mean_Z normal0) = Returned (Arr [[0]; [0]]).
Proof.
  split; [|reflexivity].
  apply (second_read_changes_nothing array unit zero_class convert
           (fun _ => tt) shape0 zeros convert_idem normal0
           well_formed_normal0).
Defined.

Lemma methods_return_on_initialised_normals_witness :
  (exists out, sample_Z 3 1 (PyInt 1) normal57 =
               (Returned out, snd (sample_Z 3 1 (PyInt 1) normal57))) /\
  well_formed (snd (sample_Z 3 1 (PyInt 1) normal57)).
Proof.
  destruct (methods_return_on_initialised_normals array unit Z zero_class
              convert (fun _ => tt) shape0 zeros fill_diag draw convert add
              convert_idem) as (_ & _ & _ & _ & Hmethods).
  destruct (Hmethods normal57 well_formed_normal57)
    as (_ & _ & _ & _ & _ & _ & Hsample).
  apply (Hsample 3 1 (PyInt 1)).
Defined.

Lemma variance_only_normal_has_zero_mean_witness :
  fst (mean_is_zero_Z (Normal_var two_by_two)) = Returned (Some true) /\
  fst (mean_Z (Normal_var two_by_two)) = Returned (Arr [[0]; [0]]) /\
  fst (sample_Z 3 1 PyNone (Normal_var two_by_two)) = Returned [[6]; [6]].
Proof.
  apply (variance_only_normal_has_zero_mean array unit Z zero_class convert
           (fun _ => tt) shape0 zeros fill_diag draw convert add convert_idem
           3 1 two_by_two [[0]; [0]]).
  discriminate.
Defined.


Lemma sample_is_repeatable_witness :
  fst (sample_Z 3 1 (PyInt 1) (snd (sample_Z 8 2 PyNone normal57))) =
  Returned [[14]; [16]].
Proof.
  rewrite (sample_is_repeatable array unit Z zero_class convert (fun _ => tt)
             shape0 zeros fill_diag draw convert add convert_idem
             3 8 1 2 (PyInt 1) PyNone normal57 well_formed_normal57).
  reflexivity.
Defined.

End NormalReadsInstances.

Section FloatInstances.

Import PyRandom FloatExample.

Abbreviation neg_F :=
  (PyRandomOps.__neg__ number unit zero_class convert (fun _ => tt) shape0
     zeros object_mul object_pow).
Abbreviation sub_F :=
  (PyRandomOps.sub_object number unit zero_class convert (fun _ => tt) shape0
     zeros add object_add object_neg).
Abbreviation truediv_F :=
  (PyRandomOps.__truediv__ number unit zero_class convert (fun _ => tt) shape0
     zeros object_mul object_pow object_truediv int_truediv).
Abbreviation sub_normal_F :=
  (PyRandomOps.sub_normal number unit zero_class convert (fun _ => tt) shape0
     zeros add object_add object_mul object_pow).
Abbreviation rsub_F :=
  (PyRandomOps.rsub_object number unit zero_class convert (fun _ => tt) shape0
     zeros add object_add object_mul object_pow).

Lemma float_convert_idem (x : pyobj number) :
  convert (Arr (convert x)) = convert x.
Proof. destruct x as [|z|[q|rows]]; reflexivity. Qed.

Lemma well_formed_float_normal57 : well_formed normal57.
Proof. split; simpl; discriminate. Qed.

Lemma well_formed_float_normal0 : well_formed normal0.
Proof. split; simpl; discriminate. Qed.

Lemma derived_arithmetic_with_a_scalar_witness :
  fst (neg_F normal57) =
    Returned (Normal_mean_var (matrix_of [[-5]; [-7]]) two_by_two,
              OObject (PyInt (-1))) /\
  fst (sub_F (PyInt 1) normal57) =
    Returned (Normal_mean_var (matrix_of [[4]; [6]]) two_by_two,
              OObject (PyInt (-1))) /\
  sub_F PyNone normal57 = (Raised TypeError, normal57) /\
  fst (truediv_F (PyInt 2) normal57) =
    Returned (Normal_mean_var (Arr (Matrix [[Qmake 5 2]; [Qmake 7 2]]))
                (Arr (Matrix [[Qmake 1 2; Qmake 0 1]; [Qmake 0 1; Qmake 1 2]])),
              OObject (Arr (Float (Qmake 1 2)))) /\
  truediv_F (PyInt 0) normal57 = (Raised ZeroDivisionError, normal57).
Proof.
  destruct (derived_arithmetic_with_a_scalar number unit zero_class convert
              (fun _ => tt) shape0 zeros add object_add object_mul object_pow
              object_neg object_truediv int_truediv float_convert_idem
              (PyInt 1) normal57 well_formed_float_normal57)
    as (Hneg & Hsub & _).
  destruct (derived_arithmetic_with_a_scalar number unit zero_class convert
              (fun _ => tt) shape0 zeros add object_add object_mul object_pow
              object_neg object_truediv int_truediv float_convert_idem
              PyNone normal57 well_formed_float_normal57)
    as (_ & _ & HsubNone & _).
  destruct (derived_arithmetic_with_a_scalar number unit zero_class convert
              (fun _ => tt) shape0 zeros add object_add object_mul object_pow
              object_neg object_truediv int_truediv float_convert_idem
              (PyInt 2) normal57 well_formed_float_normal57)
    as (_ & _ & _ & _ & Hdiv & _).
  destruct (derived_arithmetic_with_a_scalar number unit zero_class convert
              (fun _ => tt) shape0 zeros add object_add object_mul object_pow
              object_neg object_truediv int_truediv float_convert_idem
              (PyInt 0) normal57 well_formed_float_normal57)
    as (_ & _ & _ & _ & _ & Hdiv0 & _).
  split; [|split; [|split; [|split]]].
  - apply (Hneg (matrix_of [[-5]; [-7]]) two_by_two); reflexivity.
  - apply (Hsub (PyInt (-1)) (matrix_of [[4]; [6]])); reflexivity.
  - apply (HsubNone TypeError). reflexivity.
  - apply (Hdiv (Arr (Float (Qmake 1 2)))
             (Arr (Matrix [[Qmake 5 2]; [Qmake 7 2]]))
             (Arr (Float (Qmake 1 4)))
             (Arr (Matrix [[Qmake 1 2; Qmake 0 1]; [Qmake 0 1; Qmake 1 2]])));
      reflexivity.
  - apply (Hdiv0 ZeroDivisionError). reflexivity.
Defined.


End FloatInstances.
